(** * harbor-go-client: the label commands of [api/labels.go]

    A shallow embedding of the five label commands (list, create, delete by
    id, get by id, update) and the properties of the request each one builds.

    The handlers are Go procedures that read package-level variables, write
    lines to standard output and hand one request to the HTTP agent.  They
    are embedded as computations over the package variables that also
    collect the trace of what was printed and what was dispatched.  What the
    package [utils] and the Go libraries provide (the URL generator, the
    cookie file loader, the clock, the JSON encoder, the HTTP round trip and
    the status printer) is gathered in one environment record. *)

From Stdlib Require Import ZArith List String Ascii Bool Lia.
From Stdlib Require Import DecimalString DecimalZ.
Import ListNotations.

Local Open Scope Z_scope.
Local Open Scope string_scope.

Set Implicit Arguments.

(* ===================================================================== *)
(** ** Go values used by the file *)

(** A Go [error] is carried by its message; a call that returns
    [(value, err)] is a [result]. *)
Definition error := string.

Inductive result (A : Type) : Type :=
| Ok (a : A)
| Err (e : error).
Arguments Ok {A} a.
Arguments Err {A} e.

(** The line feed that [fmt.Println] ends a line with. *)
Definition newline : string := String (ascii_of_nat 10) EmptyString.

(* ===================================================================== *)
(** ** strconv *)

Module Strconv.

(** [strconv.Itoa]: the decimal rendering of an [int], with a leading
    minus sign for a negative number. *)
Definition Itoa (i : Z) : string := NilZero.string_of_int (Z.to_int i).

(** Reading a decimal rendering back; used to state that [Itoa] loses
    nothing. *)
Definition readDecimal (s : string) : option Z :=
  option_map Z.of_int (NilZero.int_of_string s).

End Strconv.

(* ===================================================================== *)
(** ** fmt *)

Module Fmt.

(** The text one call of [fmt.Println] writes: the operands separated
    by one space, then a line feed. *)
Definition Sprintln (operands : list string) : string :=
  String.concat " " operands ++ newline.

End Fmt.

(* ===================================================================== *)
(** ** time *)

Module Gotime.

(** The wall-clock reading [time.Now()] returns, by its calendar
    fields. *)
Record Time : Type := mkTime {
  Year : Z; Month : Z; Day : Z; Hour : Z; Minute : Z; Second : Z
}.

Fixpoint zeros (n : nat) : string :=
  match n with
  | O => EmptyString
  | S k => String "0"%char (zeros k)
  end.

(** [appendInt]: sign, then the digits padded with zeros to [width]. *)
Definition appendInt (x : Z) (width : nat) : string :=
  let digits := Strconv.Itoa (Z.abs x) in
  (if (x <? 0)%Z then "-" else EmptyString)
    ++ zeros (width - String.length digits)%nat ++ digits.

(** [Time.Format], for the layout chunks the file uses: [2006] is the
    year on four digits, [01] the month, [02] the day, [15] the hour,
    [04] the minute and [05] the second, each on two digits; every other
    character of these layouts stands for itself.  [skip] counts the
    characters of a chunk still to pass over. *)
Fixpoint formatFrom (t : Time) (skip : nat) (layout : string) : string :=
  match layout with
  | EmptyString => EmptyString
  | String c rest =>
      match skip with
      | S k => formatFrom t k rest
      | O =>
          if prefix "2006" layout then appendInt (Year t) 4 ++ formatFrom t 3 rest
          else if prefix "01" layout then appendInt (Month t) 2 ++ formatFrom t 1 rest
          else if prefix "02" layout then appendInt (Day t) 2 ++ formatFrom t 1 rest
          else if prefix "15" layout then appendInt (Hour t) 2 ++ formatFrom t 1 rest
          else if prefix "04" layout then appendInt (Minute t) 2 ++ formatFrom t 1 rest
          else if prefix "05" layout then appendInt (Second t) 2 ++ formatFrom t 1 rest
          else String c (formatFrom t 0 rest)
      end
  end.

Definition Format (t : Time) (layout : string) : string :=
  formatFrom t 0 layout.

End Gotime.

(* ===================================================================== *)
(** ** encoding/json *)

Module Json.

(** The JSON values a flat struct of [int], [string] and [bool] fields
    marshals to. *)
Inductive value : Type :=
| Number (n : Z)
| Str (s : string)
| Bool (b : bool).

(** An object keeps its members in the order the struct declares them. *)
Definition object := list (string * value).

Definition keys (o : object) : list string := map fst o.

Fixpoint member (k : string) (o : object) : option value :=
  match o with
  | [] => None
  | (k', v) :: rest => if String.eqb k k' then Some v else member k rest
  end.

End Json.

(* ===================================================================== *)
(** ** The HTTP agent and what package utils provides *)

Module Utils.

Inductive Verb : Type := GET | POST | PUT | DELETE.

(** The request the agent [utils.Request] has been told to build: the
    verb and target of [Get], [Post], [Put] or [Delete], the headers
    given to [Set] and the payload given to [Send]. *)
Record Request : Type := mkRequest {
  Method : Verb;
  Url : string;
  Header : list (string * string);
  Data : option string
}.

Definition Get (targetURL : string) : Request := mkRequest GET targetURL [] None.
Definition Post (targetURL : string) : Request := mkRequest POST targetURL [] None.
Definition Put (targetURL : string) : Request := mkRequest PUT targetURL [] None.
Definition Delete (targetURL : string) : Request := mkRequest DELETE targetURL [] None.

(** [Set] (the name is taken here, hence the underscore) gives a header
    its value, replacing the one it had. *)
Definition Set_ (param val : string) (r : Request) : Request :=
  mkRequest (Method r) (Url r)
    (filter (fun h => negb (String.eqb (fst h) param)) (Header r) ++ [(param, val)])%list
    (Data r).

Definition Send (content : string) (r : Request) : Request :=
  mkRequest (Method r) (Url r) (Header r) (Some content).

Fixpoint header (param : string) (hs : list (string * string)) : option string :=
  match hs with
  | [] => None
  | (k, v) :: rest => if String.eqb k param then Some v else header param rest
  end.

(** What comes back from the server, or from the transport when the
    call itself failed. *)
Record Response : Type := mkResponse {
  StatusCode : Z;
  Status : string;
  Body : string;
  Errs : list error
}.

(** The content of the cookie file. *)
Record Cookie : Type := mkCookie { BeegosessionID : string }.

(** The parts of the program and of the Go libraries that the handlers
    call and that are outside [api/labels.go]:
    - [URLGen] joins the configured registry address and a path;
    - [CookieLoad] reads the cookie file, and may fail;
    - [Now] is the reading of the clock;
    - [Marshal] is [json.Marshal] on the object a struct denotes;
    - [RoundTrip] is the exchange with the server;
    - [PrintStatus] is the text the callback of [End] prints. *)
Record Env : Type := mkEnv {
  URLGen : string -> string;
  CookieLoad : result Cookie;
  Now : Gotime.Time;
  Marshal : Json.object -> result string;
  RoundTrip : Request -> Response;
  PrintStatus : Response -> string
}.

End Utils.

(* ===================================================================== *)
(** ** The command structs and the package variables *)

Module Api.

Import Utils.

Module labelsList.
Record t : Type := mk {
  Name : string;
  Scope : string;
  ProjectID : Z;
  Page : Z;
  PageSize : Z
}.
End labelsList.

Module labelCreate.
Record t : Type := mk {
  ID : Z;
  Name : string;
  Description : string;
  Color : string;
  Scope : string;
  ProjectID : Z;
  CreationTime : string;
  UpdateTime : string;
  Deleted : bool
}.

Definition setCreationTime (v : string) (x : t) : t :=
  mk (ID x) (Name x) (Description x) (Color x) (Scope x) (ProjectID x)
     v (UpdateTime x) (Deleted x).

Definition setUpdateTime (v : string) (x : t) : t :=
  mk (ID x) (Name x) (Description x) (Color x) (Scope x) (ProjectID x)
     (CreationTime x) v (Deleted x).

(** The object [json.Marshal] is given, member names from the [json]
    tags, in the order of the fields. *)
Definition toJson (x : t) : Json.object :=
  [ ("id", Json.Number (ID x));
    ("name", Json.Str (Name x));
    ("description", Json.Str (Description x));
    ("color", Json.Str (Color x));
    ("scope", Json.Str (Scope x));
    ("project_id", Json.Number (ProjectID x));
    ("creation_time", Json.Str (CreationTime x));
    ("update_time", Json.Str (UpdateTime x));
    ("deleted", Json.Bool (Deleted x)) ].
End labelCreate.

Module labelDel.
Record t : Type := mk { ID : Z }.
End labelDel.

Module labelGet.
Record t : Type := mk { ID : Z }.
End labelGet.

Module labelUpdate.
Record t : Type := mk {
  ID : Z;
  Name : string;
  Description : string;
  Color : string;
  Scope : string;
  ProjectID : Z;
  Deleted : bool
}.

(** The struct has no time field: both are commented out in the
    source. *)
Definition toJson (x : t) : Json.object :=
  [ ("id", Json.Number (ID x));
    ("name", Json.Str (Name x));
    ("description", Json.Str (Description x));
    ("color", Json.Str (Color x));
    ("scope", Json.Str (Scope x));
    ("project_id", Json.Number (ProjectID x));
    ("deleted", Json.Bool (Deleted x)) ].
End labelUpdate.

(** The five package-level variables the flag parser fills and the
    handlers read. *)
Record Globals : Type := mkGlobals {
  labelslist : labelsList.t;
  labelcreate : labelCreate.t;
  labeldel : labelDel.t;
  labelget : labelGet.t;
  labelupdate : labelUpdate.t
}.

Definition withLabelcreate (f : labelCreate.t -> labelCreate.t) (g : Globals) : Globals :=
  mkGlobals (labelslist g) (f (labelcreate g)) (labeldel g) (labelget g) (labelupdate g).

(** *** Traces *)

Inductive Event : Type :=
| Stdout (text : string)
| Sent (r : Request).

(** The requests of a trace, in the order they were dispatched. *)
Fixpoint requests (tr : list Event) : list Request :=
  match tr with
  | [] => []
  | Sent r :: rest => r :: requests rest
  | Stdout _ :: rest => requests rest
  end.

(** The text of a trace that went to standard output. *)
Fixpoint printed (tr : list Event) : list string :=
  match tr with
  | [] => []
  | Stdout s :: rest => s :: printed rest
  | Sent _ :: rest => printed rest
  end.

(** *** Computations over the package variables *)

Record Run (A : Type) : Type := mkRun {
  value : A;
  final : Globals;
  trace : list Event
}.

Definition M (A : Type) : Type := Globals -> Run A.

Definition ret {A} (a : A) : M A := fun g => mkRun a g [].

Definition bind {A B} (m : M A) (k : A -> M B) : M B :=
  fun g =>
    let r1 := m g in
    let r2 := k (value r1) (final r1) in
    mkRun (value r2) (final r2) (trace r1 ++ trace r2)%list.

Definition get : M Globals := fun g => mkRun g g [].
Definition modify (f : Globals -> Globals) : M unit := fun g => mkRun tt (f g) [].
Definition emit (e : Event) : M unit := fun g => mkRun tt g [e].

Declare Scope go_scope.
Delimit Scope go_scope with go.
Notation "x <- m ;; k" := (bind m (fun x => k))
  (at level 61, m at next level, right associativity) : go_scope.
Notation "m ;; k" := (bind m (fun _ => k))
  (at level 61, right associativity) : go_scope.
Local Open Scope go_scope.

Definition Println (operands : list string) : M unit :=
  emit (Stdout (Fmt.Sprintln operands)).

(** The commands [init] registers with the parser. *)
Inductive Command : Type :=
| labels_list
| label_create
| label_del_by_id
| label_get_by_id
| label_update.

Section Handlers.

Variable env : Env.

(** [End]: the request goes out once, and the callback is run on what
    came back. *)
Definition End (r : Request) (callback : Response -> string) : M unit :=
  emit (Sent r) ;;
  emit (Stdout (callback (RoundTrip env r))).

Definition GetLabels (baseURL : string) : M unit :=
  g <- get ;;
  let targetURL := baseURL ++ "?scope=" ++ labelsList.Scope (labelslist g) ++
    "&name=" ++ labelsList.Name (labelslist g) ++
    "&project_id=" ++ Strconv.Itoa (labelsList.ProjectID (labelslist g)) ++
    "&page=" ++ Strconv.Itoa (labelsList.Page (labelslist g)) ++
    "&page_size=" ++ Strconv.Itoa (labelsList.PageSize (labelslist g)) in
  Println ["==> GET"; targetURL] ;;
  match CookieLoad env with
  | Err err => Println ["Error:"; err]
  | Ok c =>
      End (Set_ "Cookie" ("harbor-lang=zh-cn; beegosessionID=" ++ BeegosessionID c)
             (Get targetURL))
          (PrintStatus env)
  end.

Definition PostLabelCreate (baseURL : string) : M unit :=
  g <- get ;;
  (if String.eqb (labelCreate.CreationTime (labelcreate g)) ""
      || String.eqb (labelCreate.UpdateTime (labelcreate g)) ""
   then
     let now := Gotime.Format (Now env) "2006-01-02T15:04:05Z" in
     modify (withLabelcreate (labelCreate.setCreationTime now)) ;;
     modify (withLabelcreate (labelCreate.setUpdateTime now))
   else ret tt) ;;
  let targetURL := baseURL in
  Println ["==> POST"; targetURL] ;;
  match CookieLoad env with
  | Err err => Println ["Error:"; err]
  | Ok c =>
      g <- get ;;
      match Marshal env (labelCreate.toJson (labelcreate g)) with
      | Err err => Println ["error:"; err]
      | Ok t =>
          Println ["==> label add:"; t] ;;
          End (Send t
                 (Set_ "Cookie" ("harbor-lang=zh-cn; beegosessionID=" ++ BeegosessionID c)
                    (Post targetURL)))
              (PrintStatus env)
      end
  end.

Definition DeleteLabel (baseURL : string) : M unit :=
  g <- get ;;
  let targetURL := baseURL ++ "/" ++ Strconv.Itoa (labelDel.ID (labeldel g)) in
  Println ["==> DELETE"; targetURL] ;;
  match CookieLoad env with
  | Err err => Println ["Error:"; err]
  | Ok c =>
      End (Set_ "Cookie" ("harbor-lang=zh-cn; beegosessionID=" ++ BeegosessionID c)
             (Delete targetURL))
          (PrintStatus env)
  end.

Definition GetLabel (baseURL : string) : M unit :=
  g <- get ;;
  let targetURL := baseURL ++ "/" ++ Strconv.Itoa (labelGet.ID (labelget g)) in
  Println ["==> GET"; targetURL] ;;
  match CookieLoad env with
  | Err err => Println ["Error:"; err]
  | Ok c =>
      End (Set_ "Cookie" ("harbor-lang=zh-cn; beegosessionID=" ++ BeegosessionID c)
             (Get targetURL))
          (PrintStatus env)
  end.

Definition PutLabelUpdate (baseURL : string) : M unit :=
  g <- get ;;
  let targetURL := baseURL ++ "/" ++ Strconv.Itoa (labelUpdate.ID (labelupdate g)) in
  Println ["==> PUT"; targetURL] ;;
  match CookieLoad env with
  | Err err => Println ["Error:"; err]
  | Ok c =>
      match Marshal env (labelUpdate.toJson (labelupdate g)) with
      | Err err => Println ["error:"; err]
      | Ok t =>
          Println ["==> label add:"; t] ;;
          End (Send t
                 (Set_ "Content-Type" "application/json"
                    (Set_ "Cookie" ("harbor-lang=zh-cn; beegosessionID=" ++ BeegosessionID c)
                       (Put targetURL))))
              (PrintStatus env)
      end
  end.

(** The [Execute] methods: each calls its operation on the URL of
    [/api/labels] and returns [nil], here [None]. *)
Definition labelsList_Execute (args : list string) : M (option error) :=
  GetLabels (URLGen env "/api/labels") ;; ret None.

Definition labelCreate_Execute (args : list string) : M (option error) :=
  PostLabelCreate (URLGen env "/api/labels") ;; ret None.

Definition labelDel_Execute (args : list string) : M (option error) :=
  DeleteLabel (URLGen env "/api/labels") ;; ret None.

Definition labelGet_Execute (args : list string) : M (option error) :=
  GetLabel (URLGen env "/api/labels") ;; ret None.

Definition labelUpdate_Execute (args : list string) : M (option error) :=
  PutLabelUpdate (URLGen env "/api/labels") ;; ret None.

(** The handler of each command. *)
Definition Execute (c : Command) (args : list string) : M (option error) :=
  match c with
  | labels_list => labelsList_Execute args
  | label_create => labelCreate_Execute args
  | label_del_by_id => labelDel_Execute args
  | label_get_by_id => labelGet_Execute args
  | label_update => labelUpdate_Execute args
  end.

End Handlers.

End Api.

(* ===================================================================== *)
(** ** The flags of each command *)

Module Cli.

Import Api.

(** One flag of a command struct, as its field tags declare it: the long
    name, whether the tag [required] is present, and the [default] tag. *)
Record Flag : Type := mkFlag {
  long : string;
  required : bool;
  default : option string
}.

Definition flags (c : Command) : list Flag :=
  match c with
  | labels_list =>
      [ mkFlag "name" false (Some "");
        mkFlag "scope" true None;
        mkFlag "project_id" false (Some "0");
        mkFlag "page" false (Some "1");
        mkFlag "page_size" false (Some "10") ]
  | label_create =>
      [ mkFlag "id" false (Some "0");
        mkFlag "name" true None;
        mkFlag "description" true None;
        mkFlag "color" false (Some "#000000");
        mkFlag "scope" false (Some "g");
        mkFlag "project_id" false (Some "0");
        mkFlag "creation_time" false (Some "");
        mkFlag "update_time" false (Some "");
        mkFlag "deleted" false None ]
  | label_del_by_id => [ mkFlag "id" true None ]
  | label_get_by_id => [ mkFlag "id" true None ]
  | label_update =>
      [ mkFlag "id" true None;
        mkFlag "name" true None;
        mkFlag "description" true None;
        mkFlag "color" false (Some "#000000");
        mkFlag "scope" false (Some "g");
        mkFlag "project_id" false (Some "0");
        mkFlag "deleted" false None ]
  end.

Definition requiredFlags (c : Command) : list string :=
  map long (filter required (flags c)).

Definition given_b (name : string) (given : list string) : bool :=
  existsb (String.eqb name) given.

(** The required flags of [c] that the command line did not give. *)
Definition missing (c : Command) (given : list string) : list string :=
  filter (fun name => negb (given_b name given)) (requiredFlags c).

(** How an invocation ends: refused by the parser, or handled. *)
Inductive Outcome : Type :=
| UsageError (absent : list string)
| Handled (r : Run (option error)).

(** Modelled from the spec: the flag parser behind [utils.Parser], which
    is not part of [api/labels.go].  The spec has required fields
    validated before dispatch, their absence being a usage error and not
    a network error: the handler of a command runs only when every flag
    tagged [required] was given on the command line.  [given] lists the
    long names of the flags that were given; [g] is the package state the
    parser has bound them to. *)
Definition Invoke (env : Utils.Env) (c : Command) (given : list string)
    (args : list string) (g : Globals) : Outcome :=
  match missing c given with
  | [] => Handled (Execute env c args g)
  | absent => UsageError absent
  end.

(** The required flags as the spec names them: scope for the list
    command, name and description for create and update, id for get,
    delete and update. *)
Definition documentedRequired : list (Command * string) :=
  [ (labels_list, "scope");
    (label_create, "name"); (label_create, "description");
    (label_update, "name"); (label_update, "description");
    (label_get_by_id, "id"); (label_del_by_id, "id"); (label_update, "id") ].

(** What an invocation did towards the outside. *)
Definition outcomeTrace (o : Outcome) : list Event :=
  match o with
  | UsageError _ => []
  | Handled r => trace r
  end.

End Cli.

(* ===================================================================== *)
(** ** The documented wire contract *)

Module Wire.

(** The query string of a documented template: a question mark, then
    [key=value] pairs joined by ampersands. *)
Definition query (params : list (string * string)) : string :=
  "?" ++ String.concat "&" (map (fun p => fst p ++ "=" ++ snd p) params).

(** The field set the label schema documents for a request body. *)
Definition documentedFields : list string :=
  [ "id"; "name"; "description"; "color"; "scope"; "project_id";
    "creation_time"; "update_time"; "deleted" ].

(** The field set without the two time fields. *)
Definition fieldsWithoutTimes : list string :=
  [ "id"; "name"; "description"; "color"; "scope"; "project_id"; "deleted" ].

(** The layout the create operation formats the clock with. *)
Definition timeLayout : string := "2006-01-02T15:04:05Z".

End Wire.

(* ===================================================================== *)
(** ** Closed forms used to state what the operations do *)

Module Expect.

Import Utils Api.

(** The value of the Cookie header every operation sets. *)
Definition cookieValue (c : Cookie) : string :=
  "harbor-lang=zh-cn; beegosessionID=" ++ BeegosessionID c.

(** The trace of a dispatch: the request, then what the callback
    prints. *)
Definition dispatched (env : Env) (req : Request) : list Event :=
  [ Sent req; Stdout (PrintStatus env (RoundTrip env req)) ].

(** The target of the list operation. *)
Definition listURL (baseURL : string) (x : labelsList.t) : string :=
  baseURL ++ "?scope=" ++ labelsList.Scope x ++ "&name=" ++ labelsList.Name x
    ++ "&project_id=" ++ Strconv.Itoa (labelsList.ProjectID x)
    ++ "&page=" ++ Strconv.Itoa (labelsList.Page x)
    ++ "&page_size=" ++ Strconv.Itoa (labelsList.PageSize x).

(** The create struct once the time defaults are applied. *)
Definition stamped (env : Env) (x : labelCreate.t) : labelCreate.t :=
  if String.eqb (labelCreate.CreationTime x) ""
     || String.eqb (labelCreate.UpdateTime x) ""
  then
    let now := Gotime.Format (Now env) Wire.timeLayout in
    labelCreate.setUpdateTime now (labelCreate.setCreationTime now x)
  else x.

(** The operation behind each command. *)
Definition operation (env : Env) (c : Command) : string -> M unit :=
  match c with
  | labels_list => GetLabels env
  | label_create => PostLabelCreate env
  | label_del_by_id => DeleteLabel env
  | label_get_by_id => GetLabel env
  | label_update => PutLabelUpdate env
  end.

(** *** Path segments *)

Fixpoint hasSlash (s : string) : bool :=
  match s with
  | EmptyString => false
  | String c rest => Ascii.eqb c "/" || hasSlash rest
  end.

(** The text after the last slash of [s]; all of [s] when it has none. *)
Fixpoint lastSegment (s : string) : string :=
  match s with
  | EmptyString => EmptyString
  | String c rest =>
      if hasSlash rest then lastSegment rest
      else if Ascii.eqb c "/" then rest else s
  end.

End Expect.

(* ===================================================================== *)
(** ** A sample environment for the examples *)

Module Sample.

Import Utils Api.

Definition dquote : string := String (ascii_of_nat 34) EmptyString.

(** An encoder for the examples.  It writes a string between quotes as it
    is, which is what [json.Marshal] gives for strings that need no
    escape; the examples use only such strings. *)
Definition renderValue (v : Json.value) : string :=
  match v with
  | Json.Number n => Strconv.Itoa n
  | Json.Str s => dquote ++ s ++ dquote
  | Json.Bool true => "true"
  | Json.Bool false => "false"
  end.

Definition render (o : Json.object) : string :=
  "{" ++ String.concat ","
           (map (fun m => dquote ++ fst m ++ dquote ++ ":" ++ renderValue (snd m)) o)
      ++ "}".

Definition okResponse : Response := mkResponse 200 "200 OK" "[]" [].

Definition env : Env :=
  mkEnv (fun path => "https://localhost" ++ path)
        (Ok (mkCookie "0123abcd"))
        (Gotime.mkTime 2018 9 3 7 4 5)
        (fun o => Ok (render o))
        (fun _ => okResponse)
        (fun rsp => "<== Rsp Status: " ++ Status rsp ++ newline).

(** The same environment with an unreadable cookie file. *)
Definition envNoCookie : Env :=
  mkEnv (URLGen env) (Err "open .cookie.yaml: no such file or directory")
        (Now env) (Marshal env) (RoundTrip env) (PrintStatus env).

(** The same environment with a marshalling that fails. *)
Definition envBadJson : Env :=
  mkEnv (URLGen env) (CookieLoad env) (Now env)
        (fun _ => Err "json: unsupported value")
        (RoundTrip env) (PrintStatus env).

(** The same environment with a server that answers 401. *)
Definition envRefused : Env :=
  mkEnv (URLGen env) (CookieLoad env) (Now env) (Marshal env)
        (fun _ => mkResponse 401 "401 Unauthorized" "" [])
        (PrintStatus env).

(** The package variables as the [default] tags leave them. *)
Definition defaults : Globals :=
  mkGlobals
    (labelsList.mk "" "" 0 1 10)
    (labelCreate.mk 0 "" "" "#000000" "g" 0 "" "" false)
    (labelDel.mk 0)
    (labelGet.mk 0)
    (labelUpdate.mk 0 "" "" "#000000" "g" 0 false).

(** [labels_list --scope g --page 2 --page_size 5] *)
Definition listGlobalPage2 : Globals :=
  mkGlobals (labelsList.mk "" "g" 0 2 5)
    (labelcreate defaults) (labeldel defaults) (labelget defaults)
    (labelupdate defaults).

(** A label as the comments of the source write it. *)
Definition label100 : Globals :=
  mkGlobals (labelslist defaults)
    (labelCreate.mk 100 "label-name-100" "label-description-100" "#000000" "g" 0
       "" "" true)
    (labelDel.mk 100)
    (labelGet.mk 100)
    (labelUpdate.mk 100 "label-name-100" "label-description-100" "#000000" "g" 0 true).

End Sample.

(* ===================================================================== *)
(** ** The registrations of [init] *)

Module Registry.

Import Api.

(** The variables [init] hands to the parser by address; the handler of
    a command is the [Execute] method of the type of its variable. *)
Inductive Data : Type :=
| Labelslist
| Labelcreate
| Labeldel
| Labelget
| Labelupdate.

Definition dataExecute (env : Utils.Env) (d : Data) : list string -> M (option error) :=
  match d with
  | Labelslist => labelsList_Execute env
  | Labelcreate => labelCreate_Execute env
  | Labeldel => labelDel_Execute env
  | Labelget => labelGet_Execute env
  | Labelupdate => labelUpdate_Execute env
  end.

(** One call of [AddCommand]: the command name, the two descriptions and
    the variable. *)
Record Registration : Type := mkRegistration {
  command : string;
  shortDescription : string;
  longDescription : string;
  data : Data
}.

(** [AddCommand] adds a command after the ones the parser has. *)
Definition AddCommand (command shortDescription longDescription : string) (data : Data)
    (parser : list Registration) : list Registration :=
  (parser ++ [mkRegistration command shortDescription longDescription data])%list.

Definition init (parser : list Registration) : list Registration :=
  let parser :=
    AddCommand "labels_list"
      "List labels according to the query strings."
      "This endpoint let user list labels by name, scope and project_id"
      Labelslist parser in
  let parser :=
    AddCommand "label_create"
      "Post creates a label"
      "This endpoint let user creates a label."
      Labelcreate parser in
  let parser :=
    AddCommand "label_del_by_id"
      "Delete the label specified by ID."
      "Delete the label specified by ID."
      Labeldel parser in
  let parser :=
    AddCommand "label_get_by_id"
      "Get the label specified by ID."
      "This endpoint let user get the label by specific ID."
      Labelget parser in
  AddCommand "label_update"
    "Update the label properties."
    "This endpoint let user update label properties."
    Labelupdate parser.

(** The command a name selects: the first one registered under it. *)
Fixpoint Find (name : string) (parser : list Registration) : option Registration :=
  match parser with
  | [] => None
  | r :: rest => if String.eqb (command r) name then Some r else Find name rest
  end.

(** The name under which each command is known. *)
Definition commandName (c : Command) : string :=
  match c with
  | labels_list => "labels_list"
  | label_create => "label_create"
  | label_del_by_id => "label_del_by_id"
  | label_get_by_id => "label_get_by_id"
  | label_update => "label_update"
  end.

End Registry.

(* ===================================================================== *)
(** ** Observations on commands and their requests *)

Module Observe.

Import Utils Api.

(** The verb as the announcement line writes it. *)
Definition verbName (v : Verb) : string :=
  match v with
  | GET => "GET"
  | POST => "POST"
  | PUT => "PUT"
  | DELETE => "DELETE"
  end.

(** The id a by-id command works on; the list and create commands have
    none. *)
Definition idOf (c : Command) (g : Globals) : option Z :=
  match c with
  | label_del_by_id => Some (labelDel.ID (labeldel g))
  | label_get_by_id => Some (labelGet.ID (labelget g))
  | label_update => Some (labelUpdate.ID (labelupdate g))
  | labels_list | label_create => None
  end.

(** The object a command hands to [json.Marshal]: for create, the struct
    as the run leaves it; for update, the struct as it is; the other
    commands marshal nothing. *)
Definition marshalled (env : Env) (c : Command) (g : Globals) : option Json.object :=
  match c with
  | label_create =>
      Some (labelCreate.toJson
              (labelcreate (final (Execute env label_create [] g))))
  | label_update => Some (labelUpdate.toJson (labelupdate g))
  | labels_list | label_del_by_id | label_get_by_id => None
  end.

(** Two package states agree on the variable of command [c]. *)
Definition sameInput (c : Command) (g1 g2 : Globals) : Prop :=
  match c with
  | labels_list => labelslist g1 = labelslist g2
  | label_create => labelcreate g1 = labelcreate g2
  | label_del_by_id => labeldel g1 = labeldel g2
  | label_get_by_id => labelget g1 = labelget g2
  | label_update => labelupdate g1 = labelupdate g2
  end.

(** Every character of [s] passes the test [p]. *)
Fixpoint allChars (p : ascii -> bool) (s : string) : bool :=
  match s with
  | EmptyString => true
  | String c rest => p c && allChars p rest
  end.

(** A decimal digit or the minus sign. *)
Definition decimalChar (c : ascii) : bool :=
  existsb (Ascii.eqb c)
    [ "-"; "0"; "1"; "2"; "3"; "4"; "5"; "6"; "7"; "8"; "9" ]%char.

Definition notAmpersand (c : ascii) : bool := negb (Ascii.eqb c "&").

End Observe.

(* ===================================================================== *)
(** * Properties *)

Import Utils Api Expect.
Local Open Scope list_scope.
Local Open Scope string_scope.

Unset Implicit Arguments.

(** ** Strings and decimal renderings *)

Section StringFacts.

Lemma string_append_assoc (a b c : string) : (a ++ b) ++ c = a ++ (b ++ c).
Proof. induction a as [|ch a IH]; simpl; [reflexivity | now rewrite IH]. Qed.

Lemma string_length_append (a b : string) :
  String.length (a ++ b) = (String.length a + String.length b)%nat.
Proof. induction a as [|ch a IH]; simpl; [reflexivity | now rewrite IH]. Qed.

(** Reading from offset [length a] in [a ++ b] is reading [b]. *)
Lemma substring_skip (a b : string) (n m : nat) :
  substring (String.length a + n) m (a ++ b) = substring n m b.
Proof. induction a as [|ch a IH]; simpl; [reflexivity | exact IH]. Qed.

Lemma substring_whole_prefix (a b : string) :
  substring 0 (String.length a) (a ++ b) = a.
Proof.
  induction a as [|ch a IH]; simpl.
  - now destruct b.
  - now rewrite IH.
Qed.

(** [b] stands in [a ++ b ++ c] right after [a], unchanged. *)
Lemma substring_middle (a b c : string) :
  substring (String.length a) (String.length b) (a ++ b ++ c) = b.
Proof.
  rewrite <- (Nat.add_0_r (String.length a)), substring_skip.
  apply substring_whole_prefix.
Qed.

End StringFacts.

(** The decimal rendering of an integer reads back as that integer. *)
Lemma Itoa_readDecimal (i : Z) : Strconv.readDecimal (Strconv.Itoa i) = Some i.
Proof.
  unfold Strconv.readDecimal, Strconv.Itoa.
  rewrite NilZero.isi.
  - simpl. now rewrite DecimalZ.of_to.
  - destruct i; simpl; try discriminate.
    intros [= H]. now apply DecimalPos.Unsigned.to_uint_nonnil in H.
  - destruct i; simpl; try discriminate.
    intros [= H]. now apply DecimalPos.Unsigned.to_uint_nonnil in H.
Qed.

Lemma hasSlash_append (a b : string) : hasSlash (a ++ b) = hasSlash a || hasSlash b.
Proof.
  induction a as [|ch a IH]; simpl; [reflexivity |].
  now rewrite IH, orb_assoc.
Qed.

Lemma lastSegment_append (a seg : string) :
  hasSlash seg = false -> lastSegment (a ++ "/" ++ seg) = seg.
Proof.
  intros Hseg. induction a as [|c a IH].
  - simpl. now rewrite Hseg.
  - change (String c a ++ "/" ++ seg) with (String c (a ++ "/" ++ seg)).
    cbn [lastSegment]. rewrite hasSlash_append. simpl hasSlash.
    rewrite orb_true_r. exact IH.
Qed.

Lemma uint_no_slash (d : Decimal.uint) : hasSlash (NilEmpty.string_of_uint d) = false.
Proof. induction d; simpl; auto. Qed.

Lemma Itoa_no_slash (i : Z) : hasSlash (Strconv.Itoa i) = false.
Proof.
  unfold Strconv.Itoa.
  destruct (Z.to_int i) as [d|d]; simpl.
  - destruct d; simpl; auto using uint_no_slash.
  - destruct d; simpl; auto using uint_no_slash.
Qed.

(* ===================================================================== *)
(** ** What each operation does, case by case *)

Section Runs.

Variable env : Env.

Lemma GetLabels_run (baseURL : string) (g : Globals) :
  GetLabels env baseURL g =
  let targetURL := listURL baseURL (labelslist g) in
  mkRun tt g
    (Stdout (Fmt.Sprintln ["==> GET"; targetURL]) ::
     match CookieLoad env with
     | Ok c => dispatched env (Set_ "Cookie" (cookieValue c) (Get targetURL))
     | Err e => [ Stdout (Fmt.Sprintln ["Error:"; e]) ]
     end).
Proof.
  unfold GetLabels, End, Println, bind, get, emit.
  destruct (CookieLoad env); reflexivity.
Qed.

Lemma DeleteLabel_run (baseURL : string) (g : Globals) :
  DeleteLabel env baseURL g =
  let targetURL := baseURL ++ "/" ++ Strconv.Itoa (labelDel.ID (labeldel g)) in
  mkRun tt g
    (Stdout (Fmt.Sprintln ["==> DELETE"; targetURL]) ::
     match CookieLoad env with
     | Ok c => dispatched env (Set_ "Cookie" (cookieValue c) (Delete targetURL))
     | Err e => [ Stdout (Fmt.Sprintln ["Error:"; e]) ]
     end).
Proof.
  unfold DeleteLabel, End, Println, bind, get, emit.
  destruct (CookieLoad env); reflexivity.
Qed.

Lemma GetLabel_run (baseURL : string) (g : Globals) :
  GetLabel env baseURL g =
  let targetURL := baseURL ++ "/" ++ Strconv.Itoa (labelGet.ID (labelget g)) in
  mkRun tt g
    (Stdout (Fmt.Sprintln ["==> GET"; targetURL]) ::
     match CookieLoad env with
     | Ok c => dispatched env (Set_ "Cookie" (cookieValue c) (Get targetURL))
     | Err e => [ Stdout (Fmt.Sprintln ["Error:"; e]) ]
     end).
Proof.
  unfold GetLabel, End, Println, bind, get, emit.
  destruct (CookieLoad env); reflexivity.
Qed.

Lemma PostLabelCreate_run (baseURL : string) (g : Globals) :
  PostLabelCreate env baseURL g =
  let g' := withLabelcreate (stamped env) g in
  mkRun tt g'
    (Stdout (Fmt.Sprintln ["==> POST"; baseURL]) ::
     match CookieLoad env with
     | Err e => [ Stdout (Fmt.Sprintln ["Error:"; e]) ]
     | Ok c =>
         match Marshal env (labelCreate.toJson (labelcreate g')) with
         | Err e => [ Stdout (Fmt.Sprintln ["error:"; e]) ]
         | Ok t =>
             Stdout (Fmt.Sprintln ["==> label add:"; t]) ::
             dispatched env (Send t (Set_ "Cookie" (cookieValue c) (Post baseURL)))
         end
     end).
Proof.
  unfold PostLabelCreate, End, Println, bind, get, emit, modify, ret.
  destruct g as [ll lc ld lg lu].
  unfold withLabelcreate, stamped, Wire.timeLayout.
  cbn [value final trace labelcreate labelslist labeldel labelget labelupdate].
  destruct (String.eqb (labelCreate.CreationTime lc) ""
            || String.eqb (labelCreate.UpdateTime lc) "");
    cbn [value final trace labelcreate labelslist labeldel labelget labelupdate app];
    (destruct (CookieLoad env); [| reflexivity]);
    cbv beta iota delta [final labelcreate value trace app];
    match goal with
    | |- context [Marshal env ?o] => destruct (Marshal env o)
    end; reflexivity.
Qed.

Lemma PutLabelUpdate_run (baseURL : string) (g : Globals) :
  PutLabelUpdate env baseURL g =
  let targetURL := baseURL ++ "/" ++ Strconv.Itoa (labelUpdate.ID (labelupdate g)) in
  mkRun tt g
    (Stdout (Fmt.Sprintln ["==> PUT"; targetURL]) ::
     match CookieLoad env with
     | Err e => [ Stdout (Fmt.Sprintln ["Error:"; e]) ]
     | Ok c =>
         match Marshal env (labelUpdate.toJson (labelupdate g)) with
         | Err e => [ Stdout (Fmt.Sprintln ["error:"; e]) ]
         | Ok t =>
             Stdout (Fmt.Sprintln ["==> label add:"; t]) ::
             dispatched env
               (Send t
                  (Set_ "Content-Type" "application/json"
                     (Set_ "Cookie" (cookieValue c) (Put targetURL))))
         end
     end).
Proof.
  unfold PutLabelUpdate, End, Println, bind, get, emit.
  cbn [value final trace app].
  destruct (CookieLoad env); [| reflexivity].
  destruct (Marshal env (labelUpdate.toJson (labelupdate g))); reflexivity.
Qed.

Lemma Execute_run (c : Command) (args : list string) (g : Globals) :
  Execute env c args g =
  let r := operation env c (URLGen env "/api/labels") g in
  mkRun None (final r) (trace r).
Proof.
  destruct c; unfold Execute, labelsList_Execute, labelCreate_Execute,
    labelDel_Execute, labelGet_Execute, labelUpdate_Execute, bind, ret, operation;
    cbn [value final trace]; now rewrite app_nil_r.
Qed.

End Runs.

(* ===================================================================== *)
(** ** The list operation *)

(** C1.  The list command builds its target as the base URL followed by
    the query string of the documented template: the five keys scope,
    name, project_id, page and page_size in this order, each with the flag
    value as it is, the integers in decimal.  The target is announced on
    standard output and is the target of the request whenever one is
    dispatched. *)
Theorem GetLabels_url_template (env : Env) (args : list string) (g : Globals) :
  let x := labelslist g in
  let url :=
    URLGen env "/api/labels"
      ++ Wire.query [ ("scope", labelsList.Scope x);
                      ("name", labelsList.Name x);
                      ("project_id", Strconv.Itoa (labelsList.ProjectID x));
                      ("page", Strconv.Itoa (labelsList.Page x));
                      ("page_size", Strconv.Itoa (labelsList.PageSize x)) ] in
  let r := Execute env labels_list args g in
  hd_error (printed (trace r)) = Some (Fmt.Sprintln ["==> GET"; url]) /\
  map (fun q => (Method q, Url q)) (requests (trace r)) =
    match CookieLoad env with
    | Ok _ => [(GET, url)]
    | Err _ => []
    end /\
  Strconv.readDecimal (Strconv.Itoa (labelsList.ProjectID x)) = Some (labelsList.ProjectID x) /\
  Strconv.readDecimal (Strconv.Itoa (labelsList.Page x)) = Some (labelsList.Page x) /\
  Strconv.readDecimal (Strconv.Itoa (labelsList.PageSize x)) = Some (labelsList.PageSize x).
Proof.
  intros x url r. subst r.
  rewrite Execute_run. cbn [operation]. rewrite GetLabels_run.
  cbn [trace final value printed hd_error].
  change (listURL (URLGen env "/api/labels") (labelslist g)) with url.
  repeat split; try apply Itoa_readDecimal.
  destruct (CookieLoad env); reflexivity.
Qed.

(** The instance the documentation gives: scope g, page 2, page size 5. *)
Example GetLabels_url_documented_instance :
  map Url (requests (trace (Execute Sample.env labels_list [] Sample.listGlobalPage2))) =
  [ "https://localhost/api/labels?scope=g&name=&project_id=0&page=2&page_size=5" ].
Proof. reflexivity. Qed.

(** C10.  The name and the scope go into the query string as they are:
    the target is the base, [?scope=], the scope, [&name=], the name and
    the three numeric parameters, so both strings can be read back from the
    target at their offsets and no character is added or dropped. *)
Theorem GetLabels_name_scope_verbatim
    (env : Env) (args : list string) (g : Globals) (c : Cookie) :
  CookieLoad env = Ok c ->
  let base := URLGen env "/api/labels" in
  let scope := labelsList.Scope (labelslist g) in
  let name := labelsList.Name (labelslist g) in
  exists req numeric,
    requests (trace (Execute env labels_list args g)) = [req] /\
    Url req = base ++ "?scope=" ++ scope ++ "&name=" ++ name ++ numeric /\
    numeric = "&project_id=" ++ Strconv.Itoa (labelsList.ProjectID (labelslist g))
                ++ "&page=" ++ Strconv.Itoa (labelsList.Page (labelslist g))
                ++ "&page_size=" ++ Strconv.Itoa (labelsList.PageSize (labelslist g)) /\
    substring (String.length base + 7) (String.length scope) (Url req) = scope /\
    substring (String.length base + 7 + String.length scope + 6) (String.length name)
      (Url req) = name /\
    String.length (Url req) =
      (String.length base + 7 + String.length scope + 6 + String.length name
       + String.length numeric)%nat.
Proof.
  intros H base scope name.
  rewrite Execute_run. cbn [operation]. rewrite GetLabels_run, H.
  cbn [trace requests dispatched Set_ Get Url]. fold base.
  eexists. eexists. split; [reflexivity |].
  split; [reflexivity |]. split; [reflexivity |].
  cbn [Url]. unfold listURL. fold scope name.
  set (numeric := "&project_id=" ++ _).
  repeat split.
  - rewrite <- (string_append_assoc base "?scope=").
    replace (String.length base + 7)%nat with (String.length (base ++ "?scope="))
      by (rewrite string_length_append; reflexivity).
    apply substring_middle.
  - rewrite <- (string_append_assoc "?scope=" scope), <- (string_append_assoc base).
    rewrite <- (string_append_assoc (base ++ "?scope=" ++ scope) "&name=").
    replace (String.length base + 7 + String.length scope + 6)%nat
      with (String.length ((base ++ "?scope=" ++ scope) ++ "&name="))
      by (rewrite !string_length_append; simpl; lia).
    apply substring_middle.
  - cbn [Url Set_ Get]. rewrite !string_length_append. simpl. lia.
Qed.

(** A name with a space, an ampersand and an equals sign is not escaped. *)
Lemma GetLabels_name_scope_verbatim_witness :
  CookieLoad Sample.env = Ok (mkCookie "0123abcd") /\
  exists req numeric,
    requests (trace (Execute Sample.env labels_list []
       (mkGlobals (labelsList.mk "a b&page=9" "g=p" 0 1 10)
          (labelcreate Sample.defaults) (labeldel Sample.defaults)
          (labelget Sample.defaults) (labelupdate Sample.defaults)))) = [req] /\
    Url req = "https://localhost/api/labels" ++ "?scope=" ++ "g=p" ++ "&name=" ++ "a b&page=9"
                ++ numeric /\
    numeric = "&project_id=" ++ Strconv.Itoa 0 ++ "&page=" ++ Strconv.Itoa 1
                ++ "&page_size=" ++ Strconv.Itoa 10 /\
    substring (28 + 7) 3 (Url req) = "g=p" /\
    substring (28 + 7 + 3 + 6) 10 (Url req) = "a b&page=9" /\
    String.length (Url req) = (28 + 7 + 3 + 6 + 10 + String.length numeric)%nat.
Proof.
  split; [reflexivity |].
  exact (GetLabels_name_scope_verbatim Sample.env []
           (mkGlobals (labelsList.mk "a b&page=9" "g=p" 0 1 10)
              (labelcreate Sample.defaults) (labeldel Sample.defaults)
              (labelget Sample.defaults) (labelupdate Sample.defaults))
           (mkCookie "0123abcd") eq_refl).
Defined.

(* ===================================================================== *)
(** ** Delete and get by id *)

(** C4.  Delete by id and get by id build their target by appending a
    slash and the decimal rendering of the id to the base URL of
    [/api/labels]; the rendering is the last path segment of the target. *)
Theorem by_id_url_ends_with_id
    (env : Env) (args : list string) (g : Globals) (c : Cookie) :
  CookieLoad env = Ok c ->
  let base := URLGen env "/api/labels" in
  (exists req,
     requests (trace (Execute env label_del_by_id args g)) = [req] /\
     Method req = DELETE /\
     Url req = base ++ "/" ++ Strconv.Itoa (labelDel.ID (labeldel g)) /\
     lastSegment (Url req) = Strconv.Itoa (labelDel.ID (labeldel g)) /\
     Strconv.readDecimal (lastSegment (Url req)) = Some (labelDel.ID (labeldel g))) /\
  (exists req,
     requests (trace (Execute env label_get_by_id args g)) = [req] /\
     Method req = GET /\
     Url req = base ++ "/" ++ Strconv.Itoa (labelGet.ID (labelget g)) /\
     lastSegment (Url req) = Strconv.Itoa (labelGet.ID (labelget g)) /\
     Strconv.readDecimal (lastSegment (Url req)) = Some (labelGet.ID (labelget g))).
Proof.
  intros H base. split.
  - rewrite Execute_run. cbn [operation]. rewrite DeleteLabel_run, H.
    cbn [trace requests dispatched Set_ Delete Url Method]. fold base.
    eexists. split; [reflexivity |]. cbn [Url Method Set_ Delete Get].
    rewrite lastSegment_append by apply Itoa_no_slash.
    repeat split. apply Itoa_readDecimal.
  - rewrite Execute_run. cbn [operation]. rewrite GetLabel_run, H.
    cbn [trace requests dispatched Set_ Get Url Method]. fold base.
    eexists. split; [reflexivity |]. cbn [Url Method Set_ Delete Get].
    rewrite lastSegment_append by apply Itoa_no_slash.
    repeat split. apply Itoa_readDecimal.
Qed.

Lemma by_id_url_ends_with_id_witness :
  CookieLoad Sample.env = Ok (mkCookie "0123abcd") /\
  (exists req,
     requests (trace (Execute Sample.env label_del_by_id [] Sample.label100)) = [req] /\
     Method req = DELETE /\
     Url req = "https://localhost/api/labels" ++ "/" ++ Strconv.Itoa 100 /\
     lastSegment (Url req) = Strconv.Itoa 100 /\
     Strconv.readDecimal (lastSegment (Url req)) = Some 100%Z) /\
  (exists req,
     requests (trace (Execute Sample.env label_get_by_id [] Sample.label100)) = [req] /\
     Method req = GET /\
     Url req = "https://localhost/api/labels" ++ "/" ++ Strconv.Itoa 100 /\
     lastSegment (Url req) = Strconv.Itoa 100 /\
     Strconv.readDecimal (lastSegment (Url req)) = Some 100%Z).
Proof.
  split; [reflexivity |].
  exact (by_id_url_ends_with_id Sample.env [] Sample.label100
           (mkCookie "0123abcd") eq_refl).
Defined.

Example DeleteLabel_documented_instance :
  map (fun q => (Method q, Url q))
      (requests (trace (Execute Sample.env label_del_by_id [] Sample.label100))) =
  [ (DELETE, "https://localhost/api/labels/100") ].
Proof. reflexivity. Qed.

(* ===================================================================== *)
(** ** The session cookie *)

(** The trace of any command when the cookie file cannot be read: the
    announcement of the target, then the error. *)
Lemma Execute_trace_no_cookie
    (env : Env) (c : Command) (args : list string) (g : Globals) (e : error) :
  CookieLoad env = Err e ->
  exists announce,
    trace (Execute env c args g) =
    [ Stdout announce; Stdout (Fmt.Sprintln ["Error:"; e]) ].
Proof.
  intros H. rewrite Execute_run.
  destruct c; cbn [operation];
    rewrite ?GetLabels_run, ?PostLabelCreate_run, ?DeleteLabel_run,
            ?GetLabel_run, ?PutLabelUpdate_run, H;
    cbn [trace]; eexists; reflexivity.
Qed.

(** C3.  When the session cookie cannot be loaded, every command stops
    there: after the line that announces the target it prints the cause as
    [Error: cause], and it dispatches no request. *)
Theorem cookie_failure_stops_command
    (env : Env) (c : Command) (args : list string) (g : Globals) (e : error) :
  CookieLoad env = Err e ->
  let r := Execute env c args g in
  requests (trace r) = [] /\
  (exists announce,
     printed (trace r) = [ announce; "Error: " ++ e ++ newline ]) /\
  last (trace r) (Stdout "") = Stdout (Fmt.Sprintln ["Error:"; e]).
Proof.
  intros H r. subst r.
  destruct (Execute_trace_no_cookie env c args g _ H) as [announce ->].
  repeat split. exists announce. reflexivity.
Qed.

Lemma cookie_failure_stops_command_witness :
  CookieLoad Sample.envNoCookie = Err "open .cookie.yaml: no such file or directory" /\
  let r := Execute Sample.envNoCookie label_create [] Sample.label100 in
  requests (trace r) = [] /\
  (exists announce,
     printed (trace r) =
     [ announce; "Error: " ++ "open .cookie.yaml: no such file or directory" ++ newline ]) /\
  last (trace r) (Stdout "") =
    Stdout (Fmt.Sprintln ["Error:"; "open .cookie.yaml: no such file or directory"]).
Proof.
  split; [reflexivity |].
  exact (cookie_failure_stops_command Sample.envNoCookie label_create []
           Sample.label100 _ eq_refl).
Defined.

(** Every request a command dispatches is the last thing it does before
    printing the status, and nothing was dispatched before it. *)
Lemma Execute_trace_shape
    (env : Env) (c : Command) (args : list string) (g : Globals) :
  let tr := trace (Execute env c args g) in
  requests tr = [] \/
  exists before req ck,
    CookieLoad env = Ok ck /\
    tr = (before ++ dispatched env req)%list /\
    requests before = [] /\
    header "Cookie" (Header req) = Some (cookieValue ck).
Proof.
  cbv zeta. rewrite Execute_run.
  destruct c; cbn [operation];
    rewrite ?GetLabels_run, ?PostLabelCreate_run, ?DeleteLabel_run,
            ?GetLabel_run, ?PutLabelUpdate_run;
    cbn [trace];
    (destruct (CookieLoad env) as [ck|e]; [| left; reflexivity]);
    try match goal with
        | |- context [Marshal env ?o] =>
            destruct (Marshal env o) as [t|e]; [| left; reflexivity]
        end;
    right;
    match goal with
    | |- context [dispatched env ?q] =>
        match goal with
        | |- exists b r k, _ /\ Stdout ?a1 :: Stdout ?a2 :: _ = _ /\ _ =>
            exists [Stdout a1; Stdout a2], q, ck
        | |- exists b r k, _ /\ Stdout ?a1 :: _ = _ /\ _ =>
            exists [Stdout a1], q, ck
        end
    end;
    repeat split.
Qed.

Lemma requests_app (a b : list Event) :
  requests (a ++ b)%list = (requests a ++ requests b)%list.
Proof.
  induction a as [|[s|q] a IH]; simpl; [reflexivity | exact IH | now rewrite IH].
Qed.

(** C6, as amended.  Every request a command dispatches has a Cookie header, and its
    value is the language cookie followed by the session cookie:
    [harbor-lang=zh-cn; beegosessionID=] and the token loaded from the
    cookie file. *)
Theorem cookie_header_value
    (env : Env) (c : Command) (args : list string) (g : Globals) (req : Request) :
  In req (requests (trace (Execute env c args g))) ->
  exists ck,
    CookieLoad env = Ok ck /\
    header "Cookie" (Header req) =
      Some ("harbor-lang=zh-cn; beegosessionID=" ++ BeegosessionID ck).
Proof.
  intros Hin.
  destruct (Execute_trace_shape env c args g) as [E | (before & q & ck & Hck & E & Hb & Hh)].
  - rewrite E in Hin. destruct Hin.
  - rewrite E, requests_app, Hb in Hin. cbn in Hin.
    destruct Hin as [<- | []]. exists ck. split; assumption.
Qed.

Lemma cookie_header_value_witness :
  In (Set_ "Cookie" "harbor-lang=zh-cn; beegosessionID=0123abcd"
        (Get "https://localhost/api/labels?scope=g&name=&project_id=0&page=2&page_size=5"))
     (requests (trace (Execute Sample.env labels_list [] Sample.listGlobalPage2))) /\
  exists ck,
    CookieLoad Sample.env = Ok ck /\
    header "Cookie"
      (Header (Set_ "Cookie" "harbor-lang=zh-cn; beegosessionID=0123abcd"
        (Get "https://localhost/api/labels?scope=g&name=&project_id=0&page=2&page_size=5"))) =
      Some ("harbor-lang=zh-cn; beegosessionID=" ++ BeegosessionID ck).
Proof.
  split; [left; reflexivity |].
  exact (cookie_header_value Sample.env labels_list [] Sample.listGlobalPage2 _
           (or_introl eq_refl)).
Defined.

(** The value of the header is not the bare session cookie: with the token
    [0123abcd] loaded, the list command sends
    [harbor-lang=zh-cn; beegosessionID=0123abcd]. *)
Lemma cookie_header_is_not_bare_session :
  CookieLoad Sample.env = Ok (mkCookie "0123abcd") /\
  map (fun q => header "Cookie" (Header q))
      (requests (trace (Execute Sample.env labels_list [] Sample.listGlobalPage2))) =
    [ Some "harbor-lang=zh-cn; beegosessionID=0123abcd" ] /\
  ~ (forall req,
       In req (requests (trace (Execute Sample.env labels_list [] Sample.listGlobalPage2))) ->
       header "Cookie" (Header req) = Some ("beegosessionID=" ++ "0123abcd")).
Proof.
  split; [reflexivity |]. split; [reflexivity |].
  intros H. specialize (H _ (or_introl eq_refl)). discriminate H.
Qed.

(* ===================================================================== *)
(** ** One request, no error value *)


(** A server that refuses the request gets no second one. *)
Example refused_request_is_not_repeated :
  trace (Execute Sample.envRefused label_get_by_id [] Sample.label100) =
  [ Stdout ("==> GET https://localhost/api/labels/100" ++ newline);
    Sent (Set_ "Cookie" "harbor-lang=zh-cn; beegosessionID=0123abcd"
            (Get "https://localhost/api/labels/100"));
    Stdout ("<== Rsp Status: 401 Unauthorized" ++ newline) ].
Proof. reflexivity. Qed.

(** A marshalling that fails is printed, and nothing is dispatched. *)
Example marshal_failure_is_printed :
  Execute Sample.envBadJson label_update [] Sample.label100 =
  mkRun None Sample.label100
    [ Stdout ("==> PUT https://localhost/api/labels/100" ++ newline);
      Stdout ("error: json: unsupported value" ++ newline) ].
Proof. reflexivity. Qed.

(** C8.  [Execute] returns [nil] whatever happens: with the cookie file
    unreadable or the marshalling failed, the failure is printed and the
    error value handed back to the command-line framework is still [nil]. *)
Theorem Execute_returns_nil
    (env : Env) (c : Command) (args : list string) (g : Globals) :
  value (Execute env c args g) = None /\
  (forall e, CookieLoad env = Err e ->
     In (Stdout (Fmt.Sprintln ["Error:"; e])) (trace (Execute env c args g))) /\
  (forall ck e, CookieLoad env = Ok ck ->
     Marshal env (labelCreate.toJson (labelcreate (final (Execute env label_create args g))))
       = Err e ->
     value (Execute env label_create args g) = None /\
     In (Stdout (Fmt.Sprintln ["error:"; e])) (trace (Execute env label_create args g))) /\
  (forall ck e, CookieLoad env = Ok ck ->
     Marshal env (labelUpdate.toJson (labelupdate g)) = Err e ->
     value (Execute env label_update args g) = None /\
     In (Stdout (Fmt.Sprintln ["error:"; e])) (trace (Execute env label_update args g))).
Proof.
  split; [rewrite Execute_run; reflexivity |].
  split; [| split].
  - intros e H. destruct (Execute_trace_no_cookie env c args g _ H) as [a ->].
    right. left. reflexivity.
  - intros ck e H. rewrite !Execute_run. cbn [operation]. rewrite PostLabelCreate_run.
    cbn [final value trace]. rewrite H. intros ->. split; [reflexivity |].
    right. left. reflexivity.
  - intros ck e H HM. rewrite !Execute_run. cbn [operation]. rewrite PutLabelUpdate_run.
    cbn [final value trace]. rewrite H, HM. split; [reflexivity |].
    right. left. reflexivity.
Qed.

(* ===================================================================== *)
(** ** The request bodies *)

(** The layout renders a clock reading as year, month, day, hour, minute
    and second, zero padded, with the separators and the final [Z] of the
    layout. *)
Lemma Format_timeLayout (t : Gotime.Time) :
  Gotime.Format t Wire.timeLayout =
  Gotime.appendInt (Gotime.Year t) 4 ++ "-" ++
  Gotime.appendInt (Gotime.Month t) 2 ++ "-" ++
  Gotime.appendInt (Gotime.Day t) 2 ++ "T" ++
  Gotime.appendInt (Gotime.Hour t) 2 ++ ":" ++
  Gotime.appendInt (Gotime.Minute t) 2 ++ ":" ++
  Gotime.appendInt (Gotime.Second t) 2 ++ "Z".
Proof. reflexivity. Qed.

(** Padding gives every in-range field its full width. *)
Lemma appendInt_width4 (x : Z) :
  (0 <= x < 10000)%Z -> String.length (Gotime.appendInt x 4) = 4%nat.
Proof.
  intros H.
  assert (A : forallb (fun n => Nat.eqb (String.length (Gotime.appendInt (Z.of_nat n) 4)) 4)
                (seq 0 (Z.to_nat 10000)) = true) by (vm_compute; reflexivity).
  rewrite forallb_forall in A.
  specialize (A (Z.to_nat x)). rewrite Z2Nat.id in A by lia.
  apply Nat.eqb_eq, A, in_seq. lia.
Qed.

Lemma appendInt_width2 (x : Z) :
  (0 <= x < 100)%Z -> String.length (Gotime.appendInt x 2) = 2%nat.
Proof.
  intros H.
  assert (A : forallb (fun n => Nat.eqb (String.length (Gotime.appendInt (Z.of_nat n) 2)) 2)
                (seq 0 (Z.to_nat 100)) = true) by (vm_compute; reflexivity).
  rewrite forallb_forall in A.
  specialize (A (Z.to_nat x)). rewrite Z2Nat.id in A by lia.
  apply Nat.eqb_eq, A, in_seq. lia.
Qed.

(** A reading of the clock with a four-digit year renders on twenty
    characters, as the layout itself. *)
Lemma Format_timeLayout_length (t : Gotime.Time) :
  (0 <= Gotime.Year t < 10000)%Z ->
  (1 <= Gotime.Month t <= 12)%Z -> (1 <= Gotime.Day t <= 31)%Z ->
  (0 <= Gotime.Hour t < 24)%Z -> (0 <= Gotime.Minute t < 60)%Z ->
  (0 <= Gotime.Second t < 60)%Z ->
  String.length (Gotime.Format t Wire.timeLayout) = String.length Wire.timeLayout.
Proof.
  intros Hy Hm Hd Hh Hmi Hs.
  rewrite Format_timeLayout, !string_length_append.
  rewrite appendInt_width4 by lia.
  rewrite !appendInt_width2 by lia.
  reflexivity.
Qed.

Lemma stamped_times (env : Env) (x : labelCreate.t) :
  let now := Gotime.Format (Now env) Wire.timeLayout in
  (labelCreate.CreationTime (stamped env x), labelCreate.UpdateTime (stamped env x)) =
  if String.eqb (labelCreate.CreationTime x) "" || String.eqb (labelCreate.UpdateTime x) ""
  then (now, now)
  else (labelCreate.CreationTime x, labelCreate.UpdateTime x).
Proof.
  unfold stamped.
  destruct (String.eqb (labelCreate.CreationTime x) ""
            || String.eqb (labelCreate.UpdateTime x) ""); reflexivity.
Qed.

Lemma stamped_frame (env : Env) (x : labelCreate.t) :
  labelCreate.ID (stamped env x) = labelCreate.ID x /\
  labelCreate.Name (stamped env x) = labelCreate.Name x /\
  labelCreate.Description (stamped env x) = labelCreate.Description x /\
  labelCreate.Color (stamped env x) = labelCreate.Color x /\
  labelCreate.Scope (stamped env x) = labelCreate.Scope x /\
  labelCreate.ProjectID (stamped env x) = labelCreate.ProjectID x /\
  labelCreate.Deleted (stamped env x) = labelCreate.Deleted x.
Proof.
  unfold stamped.
  destruct (String.eqb (labelCreate.CreationTime x) ""
            || String.eqb (labelCreate.UpdateTime x) ""); repeat split.
Qed.

(** What the create command leaves in the package variables and sends. *)
Lemma create_run
    (env : Env) (args : list string) (g : Globals) :
  let r := Execute env label_create args g in
  labelcreate (final r) = stamped env (labelcreate g) /\
  map Data (requests (trace r)) =
    match CookieLoad env with
    | Err _ => []
    | Ok _ =>
        match Marshal env (labelCreate.toJson (stamped env (labelcreate g))) with
        | Ok t => [Some t]
        | Err _ => []
        end
    end.
Proof.
  cbv zeta. rewrite Execute_run. cbn [operation]. rewrite PostLabelCreate_run.
  cbn [final trace]. destruct g as [ll lc ld lg lu]. cbn [withLabelcreate labelcreate].
  split; [reflexivity |].
  destruct (CookieLoad env); [| reflexivity].
  destruct (Marshal env (labelCreate.toJson (stamped env lc))); reflexivity.
Qed.

(** C9.  In the create operation, when the creation time or the update
    time is empty, both are set to the same rendering of the current time
    before the struct is marshalled, so a value given for one of them is
    lost when the other is empty; when both are given, both are kept.  No
    other field changes, and the body sent is the marshalling of the
    struct after this step. *)
Theorem create_overwrites_both_times
    (env : Env) (args : list string) (g : Globals) :
  let x := labelcreate g in
  let r := Execute env label_create args g in
  let x' := labelcreate (final r) in
  let now := Gotime.Format (Now env) "2006-01-02T15:04:05Z" in
  (labelCreate.CreationTime x = "" \/ labelCreate.UpdateTime x = "" ->
     labelCreate.CreationTime x' = now /\ labelCreate.UpdateTime x' = now) /\
  (labelCreate.CreationTime x <> "" -> labelCreate.UpdateTime x <> "" ->
     labelCreate.CreationTime x' = labelCreate.CreationTime x /\
     labelCreate.UpdateTime x' = labelCreate.UpdateTime x) /\
  (labelCreate.ID x' = labelCreate.ID x /\
   labelCreate.Name x' = labelCreate.Name x /\
   labelCreate.Description x' = labelCreate.Description x /\
   labelCreate.Color x' = labelCreate.Color x /\
   labelCreate.Scope x' = labelCreate.Scope x /\
   labelCreate.ProjectID x' = labelCreate.ProjectID x /\
   labelCreate.Deleted x' = labelCreate.Deleted x) /\
  (forall ck t, CookieLoad env = Ok ck ->
     Marshal env (labelCreate.toJson x') = Ok t ->
     map Data (requests (trace r)) = [Some t]).
Proof.
  intros x r x' now.
  destruct (create_run env args g) as [Hfinal Hdata]. fold r in Hfinal, Hdata.
  fold x in Hfinal, Hdata. fold x' in Hfinal.
  pose proof (stamped_times env x) as Ht. cbv zeta in Ht.
  change (Gotime.Format (Now env) Wire.timeLayout) with now in Ht.
  rewrite <- Hfinal in Ht.
  split; [| split; [| split]].
  - intros Hempty.
    assert (E : String.eqb (labelCreate.CreationTime x) ""
                || String.eqb (labelCreate.UpdateTime x) "" = true).
    { apply orb_true_iff. destruct Hempty as [-> | ->]; [left | right]; reflexivity. }
    rewrite E in Ht. injection Ht as -> ->. split; reflexivity.
  - intros Hc Hu.
    apply String.eqb_neq in Hc, Hu. rewrite Hc, Hu in Ht.
    injection Ht as -> ->. split; reflexivity.
  - subst x'. rewrite Hfinal. apply stamped_frame.
  - intros ck t Hck HM. rewrite Hdata, Hck. subst x'. rewrite Hfinal in HM.
    now rewrite HM.
Qed.

(** A creation time given alone is replaced by the current time. *)
Example create_discards_lone_creation_time :
  let g := withLabelcreate (labelCreate.setCreationTime "2001-02-03T04:05:06Z")
             Sample.label100 in
  let x' := labelcreate (final (Execute Sample.env label_create [] g)) in
  labelCreate.CreationTime (labelcreate g) = "2001-02-03T04:05:06Z" /\
  labelCreate.CreationTime x' = "2018-09-03T07:04:05Z" /\
  labelCreate.UpdateTime x' = "2018-09-03T07:04:05Z".
Proof. repeat split. Qed.

(** Both times given: both are kept. *)
Example create_keeps_both_given_times :
  let g := withLabelcreate
             (fun x => labelCreate.setUpdateTime "2002-03-04T05:06:07Z"
                         (labelCreate.setCreationTime "2001-02-03T04:05:06Z" x))
             Sample.label100 in
  let x' := labelcreate (final (Execute Sample.env label_create [] g)) in
  labelCreate.CreationTime x' = "2001-02-03T04:05:06Z" /\
  labelCreate.UpdateTime x' = "2002-03-04T05:06:07Z".
Proof. repeat split. Qed.

(** C2, as amended.  The body of a create request is the marshalling of
    the nine documented fields, in which a creation time or an update time
    that was empty holds the current time in the layout
    [2006-01-02T15:04:05Z].  The body of an update request is the
    marshalling of seven fields: the update struct has neither time field,
    and the update operation sets no time and changes no variable. *)
Theorem request_body_fields
    (env : Env) (args : list string) (g : Globals) (ck : Cookie) :
  CookieLoad env = Ok ck ->
  let now := Gotime.Format (Now env) "2006-01-02T15:04:05Z" in
  (let r := Execute env label_create args g in
   let body := labelCreate.toJson (labelcreate (final r)) in
   Json.keys body = Wire.documentedFields /\
   map Data (requests (trace r)) =
     match Marshal env body with Ok t => [Some t] | Err _ => [] end /\
   (labelCreate.CreationTime (labelcreate g) = "" ->
      Json.member "creation_time" body = Some (Json.Str now)) /\
   (labelCreate.UpdateTime (labelcreate g) = "" ->
      Json.member "update_time" body = Some (Json.Str now)) /\
   now =
     Gotime.appendInt (Gotime.Year (Now env)) 4 ++ "-" ++
     Gotime.appendInt (Gotime.Month (Now env)) 2 ++ "-" ++
     Gotime.appendInt (Gotime.Day (Now env)) 2 ++ "T" ++
     Gotime.appendInt (Gotime.Hour (Now env)) 2 ++ ":" ++
     Gotime.appendInt (Gotime.Minute (Now env)) 2 ++ ":" ++
     Gotime.appendInt (Gotime.Second (Now env)) 2 ++ "Z") /\
  (let r := Execute env label_update args g in
   let body := labelUpdate.toJson (labelupdate g) in
   Json.keys body = Wire.fieldsWithoutTimes /\
   Json.member "creation_time" body = None /\
   Json.member "update_time" body = None /\
   map Data (requests (trace r)) =
     match Marshal env body with Ok t => [Some t] | Err _ => [] end /\
   final r = g).
Proof.
  intros Hck now. split.
  - intros r body.
    destruct (create_run env args g) as [Hfinal Hdata]. fold r in Hfinal, Hdata.
    assert (Hbody : body = labelCreate.toJson (stamped env (labelcreate g)))
      by (subst body; now rewrite Hfinal).
    rewrite Hck, <- Hbody in Hdata.
    pose proof (stamped_times env (labelcreate g)) as Ht. cbv zeta in Ht.
    change (Gotime.Format (Now env) Wire.timeLayout) with now in Ht.
    split; [reflexivity |]. split; [exact Hdata |].
    split; [| split].
    + intros E. rewrite E in Ht. cbn [String.eqb orb] in Ht.
      injection Ht as Hc _. rewrite Hbody. cbn. now rewrite Hc.
    + intros E. rewrite E in Ht. cbn [String.eqb] in Ht. rewrite orb_true_r in Ht.
      injection Ht as _ Hu. rewrite Hbody. cbn. now rewrite Hu.
    + apply Format_timeLayout.
  - intros r body. subst r.
    rewrite Execute_run. cbn [operation]. rewrite PutLabelUpdate_run, Hck.
    cbn [final trace]. fold body.
    repeat split.
    destruct (Marshal env body); reflexivity.
Qed.

Lemma request_body_fields_witness :
  CookieLoad Sample.env = Ok (mkCookie "0123abcd") /\
  Json.keys (labelCreate.toJson
               (labelcreate (final (Execute Sample.env label_create [] Sample.label100))))
    = Wire.documentedFields /\
  Json.keys (labelUpdate.toJson (labelupdate Sample.label100)) = Wire.fieldsWithoutTimes /\
  final (Execute Sample.env label_update [] Sample.label100) = Sample.label100.
Proof.
  pose proof (request_body_fields Sample.env [] Sample.label100
                (mkCookie "0123abcd") eq_refl) as [Hc Hu].
  cbv zeta in Hc, Hu.
  split; [reflexivity |].
  split; [exact (proj1 Hc) |].
  split; [exact (proj1 Hu) |].
  exact (proj2 (proj2 (proj2 (proj2 Hu)))).
Defined.

(** The body the update command sends for label 100 has seven members;
    neither time field is among them, in the object or in the text. *)
Lemma update_body_omits_time_fields :
  let r := Execute Sample.env label_update [] Sample.label100 in
  let body := labelUpdate.toJson (labelupdate Sample.label100) in
  map Data (requests (trace r)) = [ Some (Sample.render body) ] /\
  Json.keys body <> Wire.documentedFields /\
  List.length (Json.keys body) = 7%nat /\
  Json.member "creation_time" body = None /\
  Json.member "update_time" body = None /\
  index 0 "creation_time" (Sample.render body) = None /\
  index 0 "update_time" (Sample.render body) = None /\
  index 0 "deleted" (Sample.render body) = Some 118%nat.
Proof.
  cbv zeta. repeat split; try reflexivity. discriminate.
Qed.

(* ===================================================================== *)
(** ** Required flags *)

Lemma given_b_false (name : string) (given : list string) :
  ~ In name given -> Cli.given_b name given = false.
Proof.
  intros H. unfold Cli.given_b.
  destruct (existsb (String.eqb name) given) eqn:E; [| reflexivity].
  apply existsb_exists in E as (k & Hk & Heq).
  apply String.eqb_eq in Heq. subst k. contradiction.
Qed.

(** The flags the spec names as required are the ones the struct tags
    mark as required. *)
Lemma documentedRequired_tags (c : Command) (flag : string) :
  In (c, flag) Cli.documentedRequired <-> In flag (Cli.requiredFlags c).
Proof.
  split.
  - intros H. cbn in H.
    repeat (destruct H as [H | H]; [injection H as <- <-; cbn; tauto |]).
    destruct H.
  - destruct c; cbn; intros H;
      repeat (destruct H as [<- | H]; [tauto |]); destruct H.
Qed.

(** C5.  An invocation that lacks a required flag (scope for the list
    command; name or description for create and update; id for get, delete
    and update) ends as a usage error that names the flag: the handler does
    not run and nothing is dispatched. *)
Theorem missing_required_flag_is_usage_error
    (env : Env) (c : Command) (flag : string) (given args : list string) (g : Globals) :
  In (c, flag) Cli.documentedRequired ->
  ~ In flag given ->
  exists absent,
    Cli.Invoke env c given args g = Cli.UsageError absent /\
    In flag absent /\
    Cli.outcomeTrace (Cli.Invoke env c given args g) = [] /\
    requests (Cli.outcomeTrace (Cli.Invoke env c given args g)) = [].
Proof.
  intros Hreq Habsent.
  apply documentedRequired_tags in Hreq.
  assert (Hin : In flag (Cli.missing c given)).
  { unfold Cli.missing. apply filter_In. split; [exact Hreq |].
    now rewrite given_b_false. }
  unfold Cli.Invoke.
  destruct (Cli.missing c given) as [|m ms] eqn:E; [destruct Hin |].
  exists (m :: ms). repeat split. exact Hin.
Qed.

Lemma missing_required_flag_is_usage_error_witness :
  In (labels_list, "scope") Cli.documentedRequired /\
  ~ In "scope" ["page"; "page_size"] /\
  exists absent,
    Cli.Invoke Sample.env labels_list ["page"; "page_size"] [] Sample.defaults
      = Cli.UsageError absent /\
    In "scope" absent /\
    Cli.outcomeTrace
      (Cli.Invoke Sample.env labels_list ["page"; "page_size"] [] Sample.defaults) = [] /\
    requests
      (Cli.outcomeTrace
         (Cli.Invoke Sample.env labels_list ["page"; "page_size"] [] Sample.defaults)) = [].
Proof.
  assert (Hreq : In (labels_list, "scope") Cli.documentedRequired)
    by (left; reflexivity).
  assert (Habsent : ~ In "scope" ["page"; "page_size"])
    by (intros [H | [H | []]]; discriminate H).
  split; [exact Hreq |]. split; [exact Habsent |].
  exact (missing_required_flag_is_usage_error Sample.env labels_list "scope"
           ["page"; "page_size"] [] Sample.defaults Hreq Habsent).
Defined.

(** With every required flag given, the handler runs. *)
Example Invoke_with_required_flags :
  Cli.Invoke Sample.env labels_list ["scope"; "page"; "page_size"] []
    Sample.listGlobalPage2
  = Cli.Handled (Execute Sample.env labels_list [] Sample.listGlobalPage2).
Proof. reflexivity. Qed.

(* ===================================================================== *)
(** * Further properties of the operations *)

Import Observe.

(** ** What each command dispatches *)

(** The requests of a command, by case on the cookie and the
    marshalling. *)
Lemma Execute_requests (env : Env) (c : Command) (args : list string) (g : Globals) :
  requests (trace (Execute env c args g)) =
  match CookieLoad env with
  | Err _ => []
  | Ok ck =>
      let base := URLGen env "/api/labels" in
      match c with
      | labels_list =>
          [ Set_ "Cookie" (cookieValue ck) (Get (listURL base (labelslist g))) ]
      | label_create =>
          match Marshal env (labelCreate.toJson (stamped env (labelcreate g))) with
          | Ok t => [ Send t (Set_ "Cookie" (cookieValue ck) (Post base)) ]
          | Err _ => []
          end
      | label_del_by_id =>
          [ Set_ "Cookie" (cookieValue ck)
              (Delete (base ++ "/" ++ Strconv.Itoa (labelDel.ID (labeldel g)))) ]
      | label_get_by_id =>
          [ Set_ "Cookie" (cookieValue ck)
              (Get (base ++ "/" ++ Strconv.Itoa (labelGet.ID (labelget g)))) ]
      | label_update =>
          match Marshal env (labelUpdate.toJson (labelupdate g)) with
          | Ok t =>
              [ Send t
                  (Set_ "Content-Type" "application/json"
                     (Set_ "Cookie" (cookieValue ck)
                        (Put (base ++ "/" ++ Strconv.Itoa (labelUpdate.ID (labelupdate g)))))) ]
          | Err _ => []
          end
      end
  end.
Proof.
  rewrite Execute_run.
  destruct c; cbn [operation];
    rewrite ?GetLabels_run, ?PostLabelCreate_run, ?DeleteLabel_run,
            ?GetLabel_run, ?PutLabelUpdate_run;
    cbn [trace requests]; destruct (CookieLoad env) as [ck|e]; try reflexivity.
  - destruct g as [ll lc ld lg lu]. cbn [withLabelcreate labelcreate].
    destruct (Marshal env (labelCreate.toJson (stamped env lc))); reflexivity.
  - destruct (Marshal env (labelUpdate.toJson (labelupdate g))); reflexivity.
Qed.

(** The variables a command leaves behind. *)
Lemma Execute_final (env : Env) (c : Command) (args : list string) (g : Globals) :
  final (Execute env c args g) =
  match c with
  | label_create => withLabelcreate (stamped env) g
  | _ => g
  end.
Proof.
  rewrite Execute_run.
  destruct c; cbn [operation];
    rewrite ?GetLabels_run, ?PostLabelCreate_run, ?DeleteLabel_run,
            ?GetLabel_run, ?PutLabelUpdate_run; reflexivity.
Qed.

(** X1.  When the cookie loads and the marshalling succeeds, the update
    command dispatches exactly one request: a PUT to the base URL, a slash
    and the decimal id, with the Cookie header, the header
    [Content-Type: application/json] and the marshalled struct as payload.
    The id is the last path segment of the target. *)
Theorem update_request_shape
    (env : Env) (args : list string) (g : Globals) (ck : Cookie) (t : string) :
  CookieLoad env = Ok ck ->
  Marshal env (labelUpdate.toJson (labelupdate g)) = Ok t ->
  let url := URLGen env "/api/labels" ++ "/" ++ Strconv.Itoa (labelUpdate.ID (labelupdate g)) in
  requests (trace (Execute env label_update args g)) =
    [ mkRequest PUT url
        [ ("Cookie", "harbor-lang=zh-cn; beegosessionID=" ++ BeegosessionID ck);
          ("Content-Type", "application/json") ]
        (Some t) ] /\
  lastSegment url = Strconv.Itoa (labelUpdate.ID (labelupdate g)) /\
  Strconv.readDecimal (lastSegment url) = Some (labelUpdate.ID (labelupdate g)).
Proof.
  intros Hck Ht url. rewrite Execute_requests, Hck. cbv zeta. rewrite Ht.
  split; [reflexivity |].
  unfold url. rewrite lastSegment_append by apply Itoa_no_slash.
  split; [reflexivity | apply Itoa_readDecimal].
Qed.

Lemma update_request_shape_witness :
  CookieLoad Sample.env = Ok (mkCookie "0123abcd") /\
  Marshal Sample.env (labelUpdate.toJson (labelupdate Sample.label100)) =
    Ok (Sample.render (labelUpdate.toJson (labelupdate Sample.label100))) /\
  requests (trace (Execute Sample.env label_update [] Sample.label100)) =
    [ mkRequest PUT ("https://localhost/api/labels" ++ "/" ++ Strconv.Itoa 100)
        [ ("Cookie", "harbor-lang=zh-cn; beegosessionID=" ++ "0123abcd");
          ("Content-Type", "application/json") ]
        (Some (Sample.render (labelUpdate.toJson (labelupdate Sample.label100)))) ].
Proof.
  split; [reflexivity |]. split; [reflexivity |].
  exact (proj1 (update_request_shape Sample.env [] Sample.label100
                  (mkCookie "0123abcd") _ eq_refl eq_refl)).
Defined.

(** X2.  Every request a command dispatches has the verb of its command
    (GET for list and get, POST for create, DELETE for delete, PUT for
    update).  Only update sets a Content-Type header; only create and
    update carry a payload; a request has no header besides Cookie and,
    for update, Content-Type. *)
Theorem request_shape_per_command
    (env : Env) (c : Command) (args : list string) (g : Globals) (req : Request) :
  In req (requests (trace (Execute env c args g))) ->
  Method req =
    match c with
    | labels_list | label_get_by_id => GET
    | label_create => POST
    | label_del_by_id => DELETE
    | label_update => PUT
    end /\
  header "Content-Type" (Header req) =
    match c with
    | label_update => Some "application/json"
    | _ => None
    end /\
  map fst (Header req) =
    match c with
    | label_update => ["Cookie"; "Content-Type"]
    | _ => ["Cookie"]
    end /\
  match c with
  | label_create | label_update => exists t, Data req = Some t
  | _ => Data req = None
  end.
Proof.
  rewrite Execute_requests.
  destruct (CookieLoad env) as [ck|e]; [| intros []].
  cbv zeta. destruct c;
    try match goal with
        | |- context [Marshal env ?o] => destruct (Marshal env o) as [t|e]; [| intros []]
        end;
    intros [<- | []]; repeat split; eexists; reflexivity.
Qed.

Lemma request_shape_per_command_witness :
  In (Send (Sample.render (labelCreate.toJson
              (labelcreate (final (Execute Sample.env label_create [] Sample.label100)))))
        (Set_ "Cookie" "harbor-lang=zh-cn; beegosessionID=0123abcd"
           (Post "https://localhost/api/labels")))
     (requests (trace (Execute Sample.env label_create [] Sample.label100))) /\
  Method (Send (Sample.render (labelCreate.toJson
              (labelcreate (final (Execute Sample.env label_create [] Sample.label100)))))
        (Set_ "Cookie" "harbor-lang=zh-cn; beegosessionID=0123abcd"
           (Post "https://localhost/api/labels"))) = POST.
Proof.
  split; [left; reflexivity |].
  exact (proj1 (request_shape_per_command Sample.env label_create [] Sample.label100 _
                  (or_introl eq_refl))).
Defined.

(** ** What a command prints *)

(** The whole trace of a command, by case on the cookie and the
    marshalling: the announcement, then the error, or the payload line (for
    create and update) and the dispatch. *)
Lemma Execute_trace (env : Env) (c : Command) (args : list string) (g : Globals) :
  exists announce,
    trace (Execute env c args g) =
    Stdout announce ::
    match CookieLoad env with
    | Err e => [ Stdout (Fmt.Sprintln ["Error:"; e]) ]
    | Ok ck =>
        match requests (trace (Execute env c args g)) with
        | [] =>
            match c with
            | label_create =>
                match Marshal env (labelCreate.toJson (stamped env (labelcreate g))) with
                | Err e => [ Stdout (Fmt.Sprintln ["error:"; e]) ]
                | Ok _ => []
                end
            | label_update =>
                match Marshal env (labelUpdate.toJson (labelupdate g)) with
                | Err e => [ Stdout (Fmt.Sprintln ["error:"; e]) ]
                | Ok _ => []
                end
            | _ => []
            end
        | req :: _ =>
            match Data req with
            | Some t => Stdout (Fmt.Sprintln ["==> label add:"; t]) :: dispatched env req
            | None => dispatched env req
            end
        end
    end /\
    forall req, In req (requests (trace (Execute env c args g))) ->
      announce = "==> " ++ verbName (Method req) ++ " " ++ Url req ++ newline.
Proof.
  rewrite Execute_requests. rewrite Execute_run.
  destruct c; cbn [operation];
    rewrite ?GetLabels_run, ?PostLabelCreate_run, ?DeleteLabel_run,
            ?GetLabel_run, ?PutLabelUpdate_run;
    cbn [trace]; eexists;
    (destruct (CookieLoad env) as [ck|e]; [| split; [reflexivity | intros ? []]]);
    cbv zeta.
  - split; [reflexivity |]. intros req [<- | []]. reflexivity.
  - destruct g as [ll lc ld lg lu]. cbn [withLabelcreate labelcreate].
    destruct (Marshal env (labelCreate.toJson (stamped env lc))) as [t|e].
    + split; [reflexivity |]. intros req [<- | []]. reflexivity.
    + split; [reflexivity |]. intros req [].
  - split; [reflexivity |]. intros req [<- | []]. reflexivity.
  - split; [reflexivity |]. intros req [<- | []]. reflexivity.
  - destruct (Marshal env (labelUpdate.toJson (labelupdate g))) as [t|e].
    + split; [reflexivity |]. intros req [<- | []]. reflexivity.
    + split; [reflexivity |]. intros req [].
Qed.

(** X3.  The first line a command prints announces the request it goes on
    to dispatch: an arrow, the verb of the request, a space and its target,
    exactly as they are sent. *)
Theorem announcement_matches_request
    (env : Env) (c : Command) (args : list string) (g : Globals) (req : Request) :
  In req (requests (trace (Execute env c args g))) ->
  hd_error (trace (Execute env c args g)) =
    Some (Stdout ("==> " ++ verbName (Method req) ++ " " ++ Url req ++ newline)).
Proof.
  intros Hin.
  destruct (Execute_trace env c args g) as (announce & E & Hann).
  rewrite E, (Hann req Hin). reflexivity.
Qed.

Lemma announcement_matches_request_witness :
  In (Set_ "Cookie" "harbor-lang=zh-cn; beegosessionID=0123abcd"
        (Delete "https://localhost/api/labels/100"))
     (requests (trace (Execute Sample.env label_del_by_id [] Sample.label100))) /\
  hd_error (trace (Execute Sample.env label_del_by_id [] Sample.label100)) =
    Some (Stdout ("==> " ++ "DELETE" ++ " " ++ "https://localhost/api/labels/100" ++ newline)).
Proof.
  split; [left; reflexivity |].
  exact (announcement_matches_request Sample.env label_del_by_id [] Sample.label100 _
           (or_introl eq_refl)).
Defined.



(** X5.  When the cookie loads and the marshalling of its struct fails,
    a create or update command stops after printing [error:] and the
    cause: the trace is the announcement and this line, and nothing is
    dispatched. *)
Theorem marshal_failure_stops_command
    (env : Env) (c : Command) (args : list string) (g : Globals)
    (ck : Cookie) (o : Json.object) (e : error) :
  CookieLoad env = Ok ck ->
  marshalled env c g = Some o ->
  Marshal env o = Err e ->
  requests (trace (Execute env c args g)) = [] /\
  exists announce,
    trace (Execute env c args g) =
    [ Stdout announce; Stdout ("error: " ++ e ++ newline) ].
Proof.
  intros Hck Ho HM.
  assert (HM' :
    match c with
    | label_create =>
        Marshal env (labelCreate.toJson (stamped env (labelcreate g))) = Err e
    | label_update => Marshal env (labelUpdate.toJson (labelupdate g)) = Err e
    | _ => False
    end).
  { destruct c; try discriminate Ho; unfold marshalled in Ho;
      rewrite ?Execute_final in Ho; injection Ho as <-.
    - destruct g. exact HM.
    - exact HM. }
  assert (R : requests (trace (Execute env c args g)) = []).
  { rewrite Execute_requests, Hck. cbv zeta.
    destruct c; try contradiction; now rewrite HM'. }
  split; [exact R |].
  destruct (Execute_trace env c args g) as (announce & E & _).
  exists announce. rewrite E, Hck, R.
  destruct c; try contradiction; now rewrite HM'.
Qed.

Lemma marshal_failure_stops_command_witness :
  CookieLoad Sample.envBadJson = Ok (mkCookie "0123abcd") /\
  marshalled Sample.envBadJson label_update Sample.label100 =
    Some (labelUpdate.toJson (labelupdate Sample.label100)) /\
  Marshal Sample.envBadJson (labelUpdate.toJson (labelupdate Sample.label100)) =
    Err "json: unsupported value" /\
  requests (trace (Execute Sample.envBadJson label_update [] Sample.label100)) = [] /\
  exists announce,
    trace (Execute Sample.envBadJson label_update [] Sample.label100) =
    [ Stdout announce; Stdout ("error: " ++ "json: unsupported value" ++ newline) ].
Proof.
  split; [reflexivity |]. split; [reflexivity |]. split; [reflexivity |].
  exact (marshal_failure_stops_command Sample.envBadJson label_update []
           Sample.label100 (mkCookie "0123abcd") _ _ eq_refl eq_refl eq_refl).
Defined.

(** ** The package variables *)

(** X6.  Only the create command writes to the package variables: every
    other command leaves all five as it found them, whatever the cookie
    loader, the encoder and the server do. *)
Theorem only_create_changes_variables
    (env : Env) (c : Command) (args : list string) (g : Globals) :
  c <> label_create ->
  final (Execute env c args g) = g.
Proof.
  intros Hc. rewrite Execute_final. destruct c; congruence.
Qed.

Lemma only_create_changes_variables_witness :
  label_update <> label_create /\
  final (Execute Sample.envRefused label_update [] Sample.label100) = Sample.label100.
Proof.
  assert (H : label_update <> label_create) by discriminate.
  split; [exact H |].
  exact (only_create_changes_variables Sample.envRefused label_update []
           Sample.label100 H).
Defined.

(** X7.  What create leaves in the package variables depends on the clock
    alone: the time default is applied before the cookie is loaded, so two
    runs with the same clock end in the same state even when one of them
    fails to load the cookie, to marshal or to reach the server.  The four
    other variables are untouched. *)
Theorem create_stamps_before_it_can_fail
    (env1 env2 : Env) (args1 args2 : list string) (g : Globals) :
  Now env1 = Now env2 ->
  final (Execute env1 label_create args1 g) = final (Execute env2 label_create args2 g) /\
  labelslist (final (Execute env1 label_create args1 g)) = labelslist g /\
  labeldel (final (Execute env1 label_create args1 g)) = labeldel g /\
  labelget (final (Execute env1 label_create args1 g)) = labelget g /\
  labelupdate (final (Execute env1 label_create args1 g)) = labelupdate g.
Proof.
  intros Hnow. rewrite !Execute_final.
  unfold withLabelcreate, stamped. rewrite Hnow. repeat split.
Qed.

Lemma create_stamps_before_it_can_fail_witness :
  Now Sample.env = Now Sample.envNoCookie /\
  final (Execute Sample.env label_create [] Sample.label100) =
  final (Execute Sample.envNoCookie label_create [] Sample.label100) /\
  labelCreate.CreationTime
    (labelcreate (final (Execute Sample.envNoCookie label_create [] Sample.label100))) =
  "2018-09-03T07:04:05Z".
Proof.
  split; [reflexivity |].
  split; [| reflexivity].
  exact (proj1 (create_stamps_before_it_can_fail Sample.env Sample.envNoCookie [] []
                  Sample.label100 eq_refl)).
Defined.

(** The rendering of the clock in the layout is never empty: it ends with
    the [Z] of the layout. *)
Lemma Format_timeLayout_nonempty (t : Gotime.Time) :
  Gotime.Format t Wire.timeLayout <> "".
Proof.
  intros H. apply (f_equal String.length) in H.
  rewrite Format_timeLayout, !string_length_append in H. simpl in H. lia.
Qed.

Lemma stamped_nonempty (env : Env) (x : labelCreate.t) :
  labelCreate.CreationTime (stamped env x) <> "" /\
  labelCreate.UpdateTime (stamped env x) <> "".
Proof.
  unfold stamped.
  destruct (String.eqb_spec (labelCreate.CreationTime x) "") as [Ec | Ec];
    destruct (String.eqb_spec (labelCreate.UpdateTime x) "") as [Eu | Eu];
    cbn [orb labelCreate.CreationTime labelCreate.UpdateTime
         labelCreate.setCreationTime labelCreate.setUpdateTime];
    split; try assumption; apply Format_timeLayout_nonempty.
Qed.

Lemma stamped_fixed (env : Env) (x : labelCreate.t) :
  labelCreate.CreationTime x <> "" -> labelCreate.UpdateTime x <> "" ->
  stamped env x = x.
Proof.
  intros Hc Hu. unfold stamped.
  apply String.eqb_neq in Hc, Hu. now rewrite Hc, Hu.
Qed.

(** X8.  After a create run neither time field is empty, so the struct
    that is marshalled never carries an unset time; and a second create run
    in the same process, at any later clock, changes nothing: the times of
    the first run stay. *)
Theorem create_leaves_times_set
    (env1 env2 : Env) (args1 args2 : list string) (g : Globals) :
  let g1 := final (Execute env1 label_create args1 g) in
  labelCreate.CreationTime (labelcreate g1) <> "" /\
  labelCreate.UpdateTime (labelcreate g1) <> "" /\
  final (Execute env2 label_create args2 g1) = g1.
Proof.
  cbv zeta. rewrite !Execute_final.
  destruct g as [ll lc ld lg lu]. unfold withLabelcreate.
  cbn [labelcreate labelslist labeldel labelget labelupdate].
  destruct (stamped_nonempty env1 lc) as [Hc Hu].
  split; [exact Hc |]. split; [exact Hu |].
  now rewrite (stamped_fixed env2 (stamped env1 lc) Hc Hu).
Qed.

(** The times of a first run survive a second run at another clock. *)
Example create_twice_keeps_first_times :
  let later := mkEnv (URLGen Sample.env) (CookieLoad Sample.env)
                 (Gotime.mkTime 2019 1 1 0 0 0)
                 (Marshal Sample.env) (RoundTrip Sample.env) (PrintStatus Sample.env) in
  let g1 := final (Execute Sample.env label_create [] Sample.label100) in
  labelCreate.CreationTime (labelcreate (final (Execute later label_create [] g1))) =
  "2018-09-03T07:04:05Z".
Proof. reflexivity. Qed.

(** X9.  The output of a command depends on its own variable only: two
    package states that agree on the variable of the command give the same
    trace and the same result, whatever the other four variables hold and
    whatever positional arguments are passed. *)
Theorem command_reads_only_its_variable
    (env : Env) (c : Command) (args1 args2 : list string) (g1 g2 : Globals) :
  sameInput c g1 g2 ->
  trace (Execute env c args1 g1) = trace (Execute env c args2 g2) /\
  value (Execute env c args1 g1) = value (Execute env c args2 g2).
Proof.
  intros H. rewrite !Execute_run. cbn [trace value]. split; [| reflexivity].
  destruct c; cbn [operation sameInput] in *;
    rewrite ?GetLabels_run, ?PostLabelCreate_run, ?DeleteLabel_run,
            ?GetLabel_run, ?PutLabelUpdate_run; cbn [trace]; cbv zeta.
  - now rewrite H.
  - destruct g1, g2. cbn [withLabelcreate labelcreate] in *. now rewrite H.
  - now rewrite H.
  - now rewrite H.
  - now rewrite H.
Qed.

Lemma command_reads_only_its_variable_witness :
  sameInput label_get_by_id Sample.label100
    (mkGlobals (labelsList.mk "x" "p" 3 4 5) (labelcreate Sample.defaults)
       (labelDel.mk 7) (labelGet.mk 100) (labelupdate Sample.defaults)) /\
  trace (Execute Sample.env label_get_by_id [] Sample.label100) =
  trace (Execute Sample.env label_get_by_id ["extra"]
           (mkGlobals (labelsList.mk "x" "p" 3 4 5) (labelcreate Sample.defaults)
              (labelDel.mk 7) (labelGet.mk 100) (labelupdate Sample.defaults))).
Proof.
  split; [reflexivity |].
  exact (proj1 (command_reads_only_its_variable Sample.env label_get_by_id [] ["extra"]
                  Sample.label100
                  (mkGlobals (labelsList.mk "x" "p" 3 4 5) (labelcreate Sample.defaults)
                     (labelDel.mk 7) (labelGet.mk 100) (labelupdate Sample.defaults))
                  eq_refl)).
Defined.

(** ** Targets that identify what they address *)

Lemma string_append_cancel_l (a b c : string) : a ++ b = a ++ c -> b = c.
Proof.
  induction a as [|ch a IH]; simpl; [trivial |].
  intros [= H]. now apply IH.
Qed.

(** Two integers with the same decimal rendering are equal. *)
Lemma Itoa_inj (i j : Z) : Strconv.Itoa i = Strconv.Itoa j -> i = j.
Proof.
  intros H. apply (f_equal Strconv.readDecimal) in H.
  rewrite !Itoa_readDecimal in H. now injection H.
Qed.

(** X10.  The target of a by-id command identifies the label: when two
    runs of the same by-id command (delete, get or update) under the same
    configuration dispatch requests with equal targets, they were given the
    same id. *)
Theorem by_id_url_identifies_label
    (env : Env) (c : Command) (args args' : list string) (g g' : Globals)
    (req req' : Request) :
  In req (requests (trace (Execute env c args g))) ->
  In req' (requests (trace (Execute env c args' g'))) ->
  idOf c g <> None ->
  Url req = Url req' ->
  idOf c g = idOf c g'.
Proof.
  rewrite !Execute_requests.
  destruct (CookieLoad env) as [ck|e]; [| intros []].
  cbv zeta. destruct c; cbn [idOf]; try (intros _ _ H; now destruct H).
  - intros [<- | []] [<- | []] _ H. cbn [Url Set_ Delete] in H.
    apply string_append_cancel_l, string_append_cancel_l, Itoa_inj in H. now rewrite H.
  - intros [<- | []] [<- | []] _ H. cbn [Url Set_ Get] in H.
    apply string_append_cancel_l, string_append_cancel_l, Itoa_inj in H. now rewrite H.
  - destruct (Marshal env (labelUpdate.toJson (labelupdate g))); [| intros []].
    destruct (Marshal env (labelUpdate.toJson (labelupdate g'))); [| intros _ []].
    intros [<- | []] [<- | []] _ H. cbn [Url Set_ Put Send] in H.
    apply string_append_cancel_l, string_append_cancel_l, Itoa_inj in H. now rewrite H.
Qed.

Lemma by_id_url_identifies_label_witness :
  let g' := mkGlobals (labelslist Sample.defaults) (labelcreate Sample.defaults)
              (labelDel.mk 100) (labelGet.mk 3) (labelupdate Sample.defaults) in
  let req := Set_ "Cookie" "harbor-lang=zh-cn; beegosessionID=0123abcd"
               (Delete "https://localhost/api/labels/100") in
  In req (requests (trace (Execute Sample.env label_del_by_id [] Sample.label100))) /\
  In req (requests (trace (Execute Sample.env label_del_by_id [] g'))) /\
  idOf label_del_by_id Sample.label100 <> None /\
  Url req = Url req /\
  idOf label_del_by_id Sample.label100 = idOf label_del_by_id g'.
Proof.
  cbv zeta.
  assert (H : idOf label_del_by_id Sample.label100 <> None) by discriminate.
  split; [left; reflexivity |]. split; [left; reflexivity |].
  split; [exact H |]. split; [reflexivity |].
  exact (by_id_url_identifies_label Sample.env label_del_by_id [] [] Sample.label100 _ _ _
           (or_introl eq_refl) (or_introl eq_refl) H eq_refl).
Defined.

(** The decimal rendering is made of digits and, for a negative number, a
    leading minus sign. *)
Lemma uint_decimalChars (d : Decimal.uint) :
  allChars decimalChar (NilEmpty.string_of_uint d) = true.
Proof. induction d; simpl; auto. Qed.

Lemma Itoa_decimalChars (i : Z) : allChars decimalChar (Strconv.Itoa i) = true.
Proof.
  unfold Strconv.Itoa.
  destruct (Z.to_int i) as [d|d]; simpl;
    destruct d; simpl; auto using uint_decimalChars.
Qed.

Lemma allChars_impl (p q : ascii -> bool) (s : string) :
  (forall c, p c = true -> q c = true) -> allChars p s = true -> allChars q s = true.
Proof.
  intros Hpq. induction s as [|c s IH]; simpl; [trivial |].
  intros H. apply andb_true_iff in H as [Hc Hs].
  apply andb_true_iff. split; auto.
Qed.

Lemma decimalChar_notAmpersand (c : ascii) : decimalChar c = true -> notAmpersand c = true.
Proof.
  unfold decimalChar, notAmpersand. intros H.
  apply existsb_exists in H as (d & Hd & E). apply Ascii.eqb_eq in E. subst d.
  cbn in Hd. repeat (destruct Hd as [<- | Hd]; [reflexivity |]). destruct Hd.
Qed.

Lemma Itoa_no_ampersand (i : Z) : allChars notAmpersand (Strconv.Itoa i) = true.
Proof.
  apply (allChars_impl decimalChar); [apply decimalChar_notAmpersand | apply Itoa_decimalChars].
Qed.

(** Two texts without ampersand, each followed by an ampersand and a rest:
    when the wholes are equal, so are the texts and the rests. *)
Lemma split_at_ampersand (a a' x x' : string) :
  allChars notAmpersand a = true -> allChars notAmpersand a' = true ->
  a ++ String "&" x = a' ++ String "&" x' -> a = a' /\ x = x'.
Proof.
  revert a'. induction a as [|c a IH]; intros [|c' a']; simpl; intros Ha Ha' H.
  - injection H as ->. now split.
  - injection H as <- _. unfold notAmpersand in Ha'. simpl in Ha'. discriminate.
  - injection H as -> _. unfold notAmpersand in Ha. simpl in Ha. discriminate.
  - injection H as -> H.
    apply andb_true_iff in Ha as [_ Ha]. apply andb_true_iff in Ha' as [_ Ha'].
    destruct (IH a' Ha Ha' H) as [-> ->]. now split.
Qed.

(** X11.  With the scope and the name fixed, the target of the list
    command determines the three numeric parameters: two runs under the
    same configuration whose requests have equal targets were given the
    same project id, page and page size. *)
Theorem list_url_determines_paging
    (env : Env) (args args' : list string) (g g' : Globals) (req req' : Request) :
  In req (requests (trace (Execute env labels_list args g))) ->
  In req' (requests (trace (Execute env labels_list args' g'))) ->
  labelsList.Scope (labelslist g) = labelsList.Scope (labelslist g') ->
  labelsList.Name (labelslist g) = labelsList.Name (labelslist g') ->
  Url req = Url req' ->
  labelslist g = labelslist g'.
Proof.
  rewrite !Execute_requests.
  destruct (CookieLoad env) as [ck|e]; [| intros []].
  cbv zeta. intros [<- | []] [<- | []] Hs Hn H.
  cbn [Url Set_ Get] in H. unfold listURL in H.
  destruct (labelslist g) as [n s p q z], (labelslist g') as [n' s' p' q' z'].
  cbn [labelsList.Scope labelsList.Name labelsList.ProjectID labelsList.Page
       labelsList.PageSize] in *.
  subst s' n'.
  do 5 apply string_append_cancel_l in H.
  apply (string_append_cancel_l "&project_id=") in H.
  change ("&page=" ++ ?r) with (String "&" ("page=" ++ r)) in H.
  apply split_at_ampersand in H as [Hp H]; try apply Itoa_no_ampersand.
  apply (string_append_cancel_l "page=") in H.
  change ("&page_size=" ++ ?r) with (String "&" ("page_size=" ++ r)) in H.
  apply split_at_ampersand in H as [Hq H]; try apply Itoa_no_ampersand.
  apply (string_append_cancel_l "page_size=") in H.
  apply Itoa_inj in Hp, Hq, H. now subst.
Qed.

Lemma list_url_determines_paging_witness :
  let g' := mkGlobals (labelsList.mk "" "g" 0 2 5) (labelcreate Sample.label100)
              (labelDel.mk 9) (labelGet.mk 9) (labelupdate Sample.label100) in
  let req := Set_ "Cookie" "harbor-lang=zh-cn; beegosessionID=0123abcd"
               (Get "https://localhost/api/labels?scope=g&name=&project_id=0&page=2&page_size=5") in
  In req (requests (trace (Execute Sample.env labels_list [] Sample.listGlobalPage2))) /\
  In req (requests (trace (Execute Sample.env labels_list [] g'))) /\
  labelslist Sample.listGlobalPage2 = labelslist g'.
Proof.
  cbv zeta.
  split; [left; reflexivity |]. split; [left; reflexivity |].
  exact (list_url_determines_paging Sample.env [] [] Sample.listGlobalPage2 _ _ _
           (or_introl eq_refl) (or_introl eq_refl) eq_refl eq_refl eq_refl).
Defined.

(** ** The registrations *)

Lemma Find_app (name : string) (p q : list Registry.Registration) :
  Registry.Find name (p ++ q) =
  match Registry.Find name p with
  | Some r => Some r
  | None => Registry.Find name q
  end.
Proof.
  induction p as [|r p IH]; simpl; [reflexivity |].
  destruct (String.eqb (Registry.command r) name); [reflexivity | exact IH].
Qed.

(** X12.  After [init], each of the five command names selects the
    registration made under it, and the handler of that registration is the
    operation of the command (the list operation for [labels_list], and so
    on), provided no command was registered under that name before.  A
    name already registered keeps selecting the earlier command. *)
Theorem init_resolves_every_command
    (env : Env) (parser : list Registry.Registration) (c : Command) :
  Registry.Find (Registry.commandName c) parser = None ->
  exists r,
    Registry.Find (Registry.commandName c) (Registry.init parser) = Some r /\
    Registry.command r = Registry.commandName c /\
    Registry.dataExecute env (Registry.data r) = Execute env c.
Proof.
  intros H. unfold Registry.init, Registry.AddCommand.
  rewrite !Find_app, H.
  destruct c; cbn; eexists; repeat split.
Qed.

Lemma init_resolves_every_command_witness :
  Registry.Find (Registry.commandName label_del_by_id) [] = None /\
  exists r,
    Registry.Find (Registry.commandName label_del_by_id) (Registry.init []) = Some r /\
    Registry.command r = Registry.commandName label_del_by_id /\
    Registry.dataExecute Sample.env (Registry.data r) = Execute Sample.env label_del_by_id.
Proof.
  split; [reflexivity |].
  exact (init_resolves_every_command Sample.env [] label_del_by_id eq_refl).
Defined.

(** ** One collection, well-formed times *)

Lemma string_append_empty_r (a : string) : a ++ "" = a.
Proof. induction a as [|c a IH]; simpl; [reflexivity | now rewrite IH]. Qed.

Lemma prefix_append (a b : string) : prefix a (a ++ b) = true.
Proof. apply prefix_correct, substring_whole_prefix. Qed.

(** X13.  All five commands address the one collection [/api/labels]: the
    target of every request a command dispatches begins with the URL
    generated for that path, and what follows is empty (create), a query
    string (list) or a slash and an id (delete, get, update). *)
Theorem every_target_extends_the_labels_url
    (env : Env) (c : Command) (args : list string) (g : Globals) (req : Request) :
  In req (requests (trace (Execute env c args g))) ->
  prefix (URLGen env "/api/labels") (Url req) = true /\
  exists rest,
    Url req = URLGen env "/api/labels" ++ rest /\
    match c with
    | label_create => rest = ""
    | labels_list => prefix "?scope=" rest = true
    | label_del_by_id | label_get_by_id | label_update =>
        exists i, idOf c g = Some i /\ rest = "/" ++ Strconv.Itoa i
    end.
Proof.
  rewrite Execute_requests.
  destruct (CookieLoad env) as [ck|e]; [| intros []].
  cbv zeta. set (base := URLGen env "/api/labels").
  assert (P : forall rest, prefix base (base ++ rest) = true) by (intros; apply prefix_append).
  destruct c;
    try match goal with
        | |- context [Marshal env ?o] => destruct (Marshal env o) as [t|e]; [| intros []]
        end;
    intros [<- | []]; cbn [Url Set_ Send Get Post Put Delete idOf]; unfold listURL.
  - split; [apply P |]. eexists. split; [reflexivity | apply prefix_append].
  - split.
    + rewrite <- (string_append_empty_r base) at 2. apply P.
    + exists "". split; [| reflexivity]. symmetry. apply string_append_empty_r.
  - split; [apply P |]. eexists. split; [reflexivity |]. eexists. split; reflexivity.
  - split; [apply P |]. eexists. split; [reflexivity |]. eexists. split; reflexivity.
  - split; [apply P |]. eexists. split; [reflexivity |]. eexists. split; reflexivity.
Qed.

Lemma every_target_extends_the_labels_url_witness :
  let req := Set_ "Cookie" "harbor-lang=zh-cn; beegosessionID=0123abcd"
               (Get "https://localhost/api/labels/100") in
  In req (requests (trace (Execute Sample.env label_get_by_id [] Sample.label100))) /\
  prefix (URLGen Sample.env "/api/labels") (Url req) = true.
Proof.
  cbv zeta. split; [left; reflexivity |].
  exact (proj1 (every_target_extends_the_labels_url Sample.env label_get_by_id []
                  Sample.label100 _ (or_introl eq_refl))).
Defined.

(** X14.  When create is run with an empty creation time or update time
    and the clock reads a date with a year of at most four digits, both
    fields are left holding the same text, as long as the layout
    (twenty characters) and ending with the layout's [Z]. *)
Theorem create_default_time_is_well_formed
    (env : Env) (args : list string) (g : Globals) :
  labelCreate.CreationTime (labelcreate g) = "" \/
  labelCreate.UpdateTime (labelcreate g) = "" ->
  (0 <= Gotime.Year (Now env) < 10000)%Z ->
  (1 <= Gotime.Month (Now env) <= 12)%Z ->
  (1 <= Gotime.Day (Now env) <= 31)%Z ->
  (0 <= Gotime.Hour (Now env) < 24)%Z ->
  (0 <= Gotime.Minute (Now env) < 60)%Z ->
  (0 <= Gotime.Second (Now env) < 60)%Z ->
  let x' := labelcreate (final (Execute env label_create args g)) in
  labelCreate.CreationTime x' = labelCreate.UpdateTime x' /\
  String.length (labelCreate.CreationTime x') = 20%nat /\
  substring 19 1 (labelCreate.CreationTime x') = "Z" /\
  substring 4 1 (labelCreate.CreationTime x') = "-" /\
  substring 10 1 (labelCreate.CreationTime x') = "T".
Proof.
  intros Hempty Hy Hm Hd Hh Hmi Hs x'.
  assert (E : labelCreate.CreationTime x' = Gotime.Format (Now env) Wire.timeLayout /\
              labelCreate.UpdateTime x' = Gotime.Format (Now env) Wire.timeLayout).
  { subst x'. rewrite Execute_final. destruct g as [ll lc ld lg lu].
    cbn [withLabelcreate labelcreate] in *. unfold withLabelcreate. cbn [labelcreate].
    pose proof (stamped_times env lc) as Ht. cbv zeta in Ht.
    assert (B : String.eqb (labelCreate.CreationTime lc) ""
                || String.eqb (labelCreate.UpdateTime lc) "" = true).
    { apply orb_true_iff. destruct Hempty as [-> | ->]; [left | right]; reflexivity. }
    rewrite B in Ht. now injection Ht. }
  destruct E as [-> ->]. split; [reflexivity |].
  pose proof (appendInt_width4 _ Hy) as Ly.
  assert (Lm : String.length (Gotime.appendInt (Gotime.Month (Now env)) 2) = 2%nat)
    by (apply appendInt_width2; lia).
  assert (Ld : String.length (Gotime.appendInt (Gotime.Day (Now env)) 2) = 2%nat)
    by (apply appendInt_width2; lia).
  assert (Lh : String.length (Gotime.appendInt (Gotime.Hour (Now env)) 2) = 2%nat)
    by (apply appendInt_width2; lia).
  assert (Lmi : String.length (Gotime.appendInt (Gotime.Minute (Now env)) 2) = 2%nat)
    by (apply appendInt_width2; lia).
  assert (Ls : String.length (Gotime.appendInt (Gotime.Second (Now env)) 2) = 2%nat)
    by (apply appendInt_width2; lia).
  rewrite Format_timeLayout.
  set (Y := Gotime.appendInt (Gotime.Year (Now env)) 4) in *.
  set (Mo := Gotime.appendInt (Gotime.Month (Now env)) 2) in *.
  set (D := Gotime.appendInt (Gotime.Day (Now env)) 2) in *.
  set (H := Gotime.appendInt (Gotime.Hour (Now env)) 2) in *.
  set (Mi := Gotime.appendInt (Gotime.Minute (Now env)) 2) in *.
  set (S := Gotime.appendInt (Gotime.Second (Now env)) 2) in *.
  split; [rewrite !string_length_append, Ly, Lm, Ld, Lh, Lmi, Ls; reflexivity |].
  split; [| split].
  - (* the last character *)
    replace (Y ++ "-" ++ Mo ++ "-" ++ D ++ "T" ++ H ++ ":" ++ Mi ++ ":" ++ S ++ "Z")
      with ((Y ++ "-" ++ Mo ++ "-" ++ D ++ "T" ++ H ++ ":" ++ Mi ++ ":" ++ S) ++ "Z" ++ "")
      by (rewrite !string_append_assoc; reflexivity).
    replace 19%nat
      with (String.length (Y ++ "-" ++ Mo ++ "-" ++ D ++ "T" ++ H ++ ":" ++ Mi ++ ":" ++ S))
      by (rewrite !string_length_append, Ly, Lm, Ld, Lh, Lmi, Ls; reflexivity).
    apply (substring_middle _ "Z" "").
  - replace 4%nat with (String.length Y) by exact Ly.
    apply (substring_middle Y "-").
  - replace (Y ++ "-" ++ Mo ++ "-" ++ D ++ "T" ++ H ++ ":" ++ Mi ++ ":" ++ S ++ "Z")
      with ((Y ++ "-" ++ Mo ++ "-" ++ D) ++ "T" ++ H ++ ":" ++ Mi ++ ":" ++ S ++ "Z")
      by (rewrite !string_append_assoc; reflexivity).
    replace 10%nat with (String.length (Y ++ "-" ++ Mo ++ "-" ++ D))
      by (rewrite !string_length_append, Ly, Lm, Ld; reflexivity).
    apply (substring_middle _ "T").
Qed.

Lemma create_default_time_is_well_formed_witness :
  let x' := labelcreate (final (Execute Sample.env label_create [] Sample.label100)) in
  (labelCreate.CreationTime (labelcreate Sample.label100) = "" \/
   labelCreate.UpdateTime (labelcreate Sample.label100) = "") /\
  labelCreate.CreationTime x' = labelCreate.UpdateTime x' /\
  String.length (labelCreate.CreationTime x') = 20%nat /\
  substring 19 1 (labelCreate.CreationTime x') = "Z" /\
  substring 4 1 (labelCreate.CreationTime x') = "-" /\
  substring 10 1 (labelCreate.CreationTime x') = "T".
Proof.
  cbv zeta. split; [left; reflexivity |].
  apply (create_default_time_is_well_formed Sample.env [] Sample.label100);
    [left; reflexivity | cbn; lia ..].
Defined.

(** ** The same id, in the path and across commands *)

(** X15.  In an update request the id of the path and the id of the
    payload are the same number: the last path segment of the target reads
    back as the [id] member of the object that was marshalled into the
    payload. *)
Theorem update_path_id_matches_body_id
    (env : Env) (args : list string) (g : Globals) (req : Request) :
  In req (requests (trace (Execute env label_update args g))) ->
  exists t i,
    Data req = Some t /\
    Marshal env (labelUpdate.toJson (labelupdate g)) = Ok t /\
    Json.member "id" (labelUpdate.toJson (labelupdate g)) = Some (Json.Number i) /\
    Strconv.readDecimal (lastSegment (Url req)) = Some i.
Proof.
  rewrite Execute_requests.
  destruct (CookieLoad env) as [ck|e]; [| intros []].
  cbv zeta.
  destruct (Marshal env (labelUpdate.toJson (labelupdate g))) as [t|e]; [| intros []].
  intros [<- | []]. exists t, (labelUpdate.ID (labelupdate g)).
  cbn [Data Url Send Set_ Put].
  rewrite lastSegment_append by apply Itoa_no_slash.
  repeat split. apply Itoa_readDecimal.
Qed.

Lemma update_path_id_matches_body_id_witness :
  let t := Sample.render (labelUpdate.toJson (labelupdate Sample.label100)) in
  let req := Send t
               (Set_ "Content-Type" "application/json"
                  (Set_ "Cookie" "harbor-lang=zh-cn; beegosessionID=0123abcd"
                     (Put "https://localhost/api/labels/100"))) in
  In req (requests (trace (Execute Sample.env label_update [] Sample.label100))) /\
  exists t i,
    Data req = Some t /\
    Marshal Sample.env (labelUpdate.toJson (labelupdate Sample.label100)) = Ok t /\
    Json.member "id" (labelUpdate.toJson (labelupdate Sample.label100)) =
      Some (Json.Number i) /\
    Strconv.readDecimal (lastSegment (Url req)) = Some i.
Proof.
  cbv zeta. split; [left; reflexivity |].
  exact (update_path_id_matches_body_id Sample.env [] Sample.label100 _
           (or_introl eq_refl)).
Defined.


